(** * Duolingo guidebook converters: extraction, batching and combining

    A shallow embedding of [duolingo_to_markdown.py] and
    [batch_convert_duolingo.py].  The extraction functions
    ([extract_dialog_text], [process_dialog], [process_tip],
    [extract_content]) are the same in both scripts and are embedded once.

    Conventions of the embedding:
    - a Python [str] is a [string]; every character stands for one code
      point, so the development covers the code points below 256;
    - a Python [int] is a [Z];
    - [None] is [None] of an option type, and a value tested for truth
      ([if text:]) goes through [truthy];
    - the parse tree of BeautifulSoup is the inductive type [node]; the
      library calls the scripts make ([find], [find_all], [children],
      [get_text], [get]) are functions over it; the parser itself is a
      parameter, which returns a tree or raises on markup it rejects;
    - a call that may raise returns an [outcome]: the value, or the
      exception raised;
    - the file system and the network are explicit: a file store is a
      finite map from names to contents, the HTTP session is a function
      from URLs to outcomes. *)

From Stdlib Require Import String Ascii ZArith List Bool Lia DecimalString DecimalPos.
From stdpp Require Import base option list strings gmap sorting.

#[local] Set Warnings "-register-all".
Local Open Scope Z_scope.

(** ** Python strings *)

Module Py.

(** What a call that may raise comes back with: the value it returns, or
    the exception it raises. *)
Inductive outcome (A : Type) : Type :=
| Returned (a : A)
| Raised (e : string).
Arguments Returned {A} a.
Arguments Raised {A} e.

(** The line feed, [\n]. *)
Definition nl : string := String (ascii_of_nat 10) EmptyString.

(** [bool(s)] for a string: the empty string is false. *)
Definition truthy (s : string) : bool :=
  match s with
  | EmptyString => false
  | String _ _ => true
  end.

(** [c.isspace()] on the code points below 256: TAB, LF, VT, FF, CR,
    FS, GS, RS, US, space, NEL and the no-break space. *)
Definition isspace (c : ascii) : bool :=
  let n := nat_of_ascii c in
  ((9 <=? n)%nat && (n <=? 13)%nat)
  || ((28 <=? n)%nat && (n <=? 32)%nat)
  || (n =? 133)%nat
  || (n =? 160)%nat.

(** [s.lstrip()] *)
Fixpoint lstrip (s : string) : string :=
  match s with
  | EmptyString => EmptyString
  | String c s' => if isspace c then lstrip s' else s
  end.

(** [s.rstrip()] *)
Fixpoint rstrip (s : string) : string :=
  match s with
  | EmptyString => EmptyString
  | String c s' =>
      match rstrip s' with
      | EmptyString => if isspace c then EmptyString else String c EmptyString
      | r => String c r
      end
  end.

(** [s.strip()] *)
Definition strip (s : string) : string := lstrip (rstrip s).

(** [sep.join(parts)] *)
Definition join (sep : string) (parts : list string) : string :=
  String.concat sep parts.

(** [needle in hay] for two strings. *)
Fixpoint contains (needle hay : string) : bool :=
  String.prefix needle hay
  || match hay with
     | EmptyString => false
     | String _ hay' => contains needle hay'
     end.

(** Does the string hold a space?  (No class token does.) *)
Fixpoint has_space (s : string) : bool :=
  match s with
  | EmptyString => false
  | String c s' => Ascii.eqb c " "%char || has_space s'
  end.

(** [x in xs] for a list of strings. *)
Definition mem (x : string) (xs : list string) : bool :=
  existsb (String.eqb x) xs.

(** [str(n)] for an integer, as an f-string interpolates it. *)
Definition str_of_int (n : Z) : string :=
  NilZero.string_of_int (Z.to_int n).

(** [range(start, stop)] *)
Definition range (start stop : Z) : list Z :=
  map (fun k => start + Z.of_nat k) (seq 0 (Z.to_nat (stop - start))).

End Py.

(** ** The parse tree *)

(** The attributes the scripts read.  [class] is multi-valued: the parser
    stores the list of its whitespace-separated tokens; an attribute that
    is not there is [None]. *)
Record attrs : Type := Attrs {
  attr_class : option (list string);
  attr_src : option string
}.

(** A page element.  [NavigableString] is a text node; [Comment] stands
    for the strings of the other string classes (comments, declarations),
    which are instances of [str] but which [get_text] leaves out. *)
Inductive node : Type :=
| NavigableString (s : string)
| Comment (s : string)
| Tag (name : string) (a : attrs) (contents : list node).

Definition no_attrs : attrs := Attrs None None.
Definition with_class (cs : list string) : attrs := Attrs (Some cs) None.
Definition with_src (s : string) : attrs := Attrs None (Some s).

Module Soup.

(** [element.children] *)
Definition children (n : node) : list node :=
  match n with
  | Tag _ _ cs => cs
  | _ => []
  end.

(** [element.descendants]: every node below [n], in document order. *)
Fixpoint descendants (n : node) : list node :=
  match n with
  | Tag _ _ cs => flat_map (fun c => c :: descendants c) cs
  | _ => []
  end.

(** [isinstance(element, str)], with the string it holds. *)
Definition as_str (n : node) : option string :=
  match n with
  | NavigableString s => Some s
  | Comment s => Some s
  | Tag _ _ _ => None
  end.

(** [element.get('class', [])] *)
Definition get_class (n : node) : list string :=
  match n with
  | Tag _ a _ => default [] (attr_class a)
  | _ => []
  end.

(** [element.get('src', '')] *)
Definition get_src (n : node) : string :=
  match n with
  | Tag _ a _ => default EmptyString (attr_src a)
  | _ => EmptyString
  end.

(** [element.name == name]; a string has no tag name. *)
Definition has_name (name : string) (n : node) : bool :=
  match n with
  | Tag nm _ _ => String.eqb nm name
  | _ => false
  end.

(** The strings [get_text] visits: the text nodes below [n], in order. *)
Fixpoint all_strings (n : node) : list string :=
  match n with
  | NavigableString s => [s]
  | Comment _ => []
  | Tag _ _ cs => flat_map all_strings cs
  end.

(** [element.get_text()] *)
Definition get_text (n : node) : string :=
  Py.join EmptyString (all_strings n).

(** [element.get_text(strip=True)]: each text node is stripped, the ones
    left empty are dropped. *)
Definition get_text_strip (n : node) : string :=
  Py.join EmptyString (List.filter Py.truthy (map Py.strip (all_strings n))).

(** How a search value given as [class_=cls] is matched against the value
    of the [class] attribute.  A missing attribute is [None] for the
    library, which matches it with every search value that is false, so
    with the empty string only.  A token list matches when one token is
    [cls] or when the tokens joined by single spaces are [cls]. *)
Definition matches_class (cls : string) (v : option (list string)) : bool :=
  match v with
  | None => negb (Py.truthy cls)
  | Some tokens =>
      Py.mem cls tokens || String.eqb (Py.join " " tokens) cls
  end.

(** Does the element pass the filter [(name, class_=cls)]? *)
Definition matches (name : string) (cls : option string) (n : node) : bool :=
  match n with
  | Tag nm a _ =>
      String.eqb nm name
      && match cls with
         | None => true
         | Some c => matches_class c (attr_class a)
         end
  | _ => false
  end.

(** [element.find_all(name, class_=cls)] *)
Definition find_all (name : string) (cls : option string) (n : node)
  : list node :=
  List.filter (matches name cls) (descendants n).

(** [element.find(name, class_=cls)]: the first result of [find_all]. *)
Definition find (name : string) (cls : option string) (n : node)
  : option node :=
  head (find_all name cls n).

(** [element.find_all(name, recursive=False)] *)
Definition find_all_children (name : string) (n : node) : list node :=
  List.filter (matches name None) (children n).

(** [name] elements that carry the class marker [cls]: the test
    [element.name == name and cls in element.get('class', [])]. *)
Definition marked (name cls : string) (n : node) : bool :=
  has_name name n && Py.mem cls (get_class n).

(** Is the [class] attribute of the element missing or empty?  (An old
    parser keeps one empty token for [class] with an empty value.) *)
Definition class_is_empty (n : node) : bool :=
  match n with
  | Tag _ a _ =>
      match attr_class a with
      | None => true
      | Some [] => true
      | Some tokens => Py.mem EmptyString tokens
      end
  | _ => false
  end.

(** A [div] whose class attribute is missing or empty. *)
Definition plain_div (n : node) : bool :=
  has_name "div" n && class_is_empty n.

(** [x] is the first node below [n], in document order, that passes [f]. *)
Definition first_such (f : node -> bool) (n x : node) : Prop :=
  exists before after : list node,
    descendants n = before ++ x :: after
    /\ f x = true
    /\ forall d, In d before -> f d = false.

End Soup.

(** ** The content extractor *)

Module Extractor.
Import Py Soup.

(** A double quote, for the attribute values of the emitted HTML. *)
Definition dquote : string := String (ascii_of_nat 34) EmptyString.

(** The tokens [extract_dialog_text] accepts as sentence punctuation. *)
Definition punctuation : list string := ["."; "?"; "!"; ","].

(** The loop over [text_div.children] of [extract_dialog_text]: the
    first string child that is a punctuation token once stripped ends the
    loop and is what gets appended; no such child appends nothing. *)
Fixpoint scan_punctuation (cs : list node) : string :=
  match cs with
  | [] => EmptyString
  | content :: cs' =>
      match as_str content with
      | Some s =>
          let text := strip s in
          if mem text punctuation then text else scan_punctuation cs'
      | None => scan_punctuation cs'
      end
  end.

(** What [extract_dialog_text] builds once it holds the text container. *)
Definition dialog_text_of (text_div : node) : option string :=
  let german_parts := map get_text (find_all "span" (Some "dotted") text_div) in
  let german_text :=
    join " " german_parts +:+ scan_punctuation (children text_div) in
  let english_text :=
    match find "span" (Some "cAF") text_div with
    | Some english_span => get_text english_span
    | None => EmptyString
    end in
  if truthy german_text && truthy english_text
  then Some (german_text +:+ nl +:+ english_text)
  else if truthy german_text then Some german_text
  else None.

(** [extract_dialog_text(phrase_div)] *)
Definition extract_dialog_text (phrase_div : node) : option string :=
  match find "div" (Some EmptyString) phrase_div with
  | None => None
  | Some text_div => dialog_text_of text_div
  end.

(** The loop over the storylines of [process_dialog]. *)
Definition dialog_lines (dialog_div : node) : list string :=
  flat_map
    (fun storyline =>
       match find "div" (Some "phrase") storyline with
       | Some phrase =>
           match extract_dialog_text phrase with
           | Some text => if truthy text then [text] else []
           | None => []
           end
       | None => []
       end)
    (find_all "div" (Some "storyline") dialog_div).

(** [process_dialog(dialog_div)] *)
Definition process_dialog (dialog_div : node) : option string :=
  match dialog_lines dialog_div with
  | [] => None
  | lines => Some (join (nl +:+ nl) lines)
  end.

(** The loop over [inner_div.children] in the caption of an
    illustration: strings and plain spans feed [german_parts], a [cAF]
    span sets [english_text], a [br] ends the loop. *)
Fixpoint scan_caption (cs : list node) (german_parts : list string)
    (english_text : string) : list string * string :=
  match cs with
  | [] => (german_parts, english_text)
  | content :: cs' =>
      match as_str content with
      | Some s => scan_caption cs' (german_parts ++ [s]) english_text
      | None =>
          if has_name "span" content then
            if mem "cAF" (get_class content)
            then scan_caption cs' german_parts (get_text content)
            else scan_caption cs' (german_parts ++ [get_text content])
                   english_text
          else if has_name "br" content then (german_parts, english_text)
          else scan_caption cs' german_parts english_text
      end
  end.

(** The three variables the illustration branch of [process_tip] fills. *)
Record illustration : Type := Illustration {
  img_src : option string;
  caption_german : option string;
  caption_english : option string
}.

(** One turn of the loop over the [div] children of a caption. *)
Definition caption_step (st : illustration) (inner_div : node) : illustration :=
  if mem "playback" (get_class inner_div) then st
  else
    let '(german_parts, english_text) :=
      scan_caption (children inner_div) [] EmptyString in
    Illustration (img_src st)
      (Some (strip (join EmptyString german_parts)))
      (Some (strip english_text)).

(** An [img] whose source the illustration branch keeps: the source is
    not empty and does not hold [yandex]. *)
Definition qualifying_img (child : node) : bool :=
  has_name "img" child
  && truthy (get_src child)
  && negb (contains "yandex" (get_src child)).

(** One turn of the loop over the children of an illustration. *)
Definition illustration_step (st : illustration) (child : node) : illustration :=
  if has_name "img" child then
    let src := get_src child in
    if truthy src && negb (contains "yandex" src)
    then Illustration (Some src) (caption_german st) (caption_english st)
    else st
  else if has_name "div" child && mem "caption" (get_class child) then
    fold_left caption_step (find_all_children "div" child) st
  else st.

(** The state after the loop over [element.children]. *)
Definition scan_illustration (element : node) : illustration :=
  fold_left illustration_step (children element)
    (Illustration None None None).

(** [bool(x)] for a variable that holds [None] or a string. *)
Definition truthy_opt (x : option string) : bool :=
  match x with
  | Some s => truthy s
  | None => false
  end.

(** The opening of the figure line, up to the end of the [img] tag. *)
Definition img_tag (src : string) : string :=
  "> <figure><img src=" +:+ dquote +:+ src +:+ dquote
  +:+ " alt=" +:+ dquote +:+ "Illustration" +:+ dquote +:+ ">".

(** The lines the illustration branch appends. *)
Definition figure_lines (st : illustration) : list string :=
  match img_src st with
  | Some src =>
      if truthy src then
        let caption_parts :=
          (if truthy_opt (caption_german st)
           then [default EmptyString (caption_german st)] else [])
          ++ (if truthy_opt (caption_english st)
              then ["<br><em>" +:+ default EmptyString (caption_english st)
                    +:+ "</em>"]
              else []) in
        let caption_html := join EmptyString caption_parts in
        [">";
         if truthy caption_html
         then img_tag src +:+ "<figcaption>" +:+ caption_html
              +:+ "</figcaption></figure>"
         else img_tag src +:+ "</figure>";
         ">"]
      else []
  | None => []
  end.

(** The lines one child of the tip appends. *)
Definition tip_child_lines (element : node) : list string :=
  if has_name "p" element then
    let text := get_text element in
    if truthy text && truthy (strip text) then ["> " +:+ text; ">"] else []
  else if has_name "div" element && mem "illustration" (get_class element)
  then figure_lines (scan_illustration element)
  else [].

(** The lines for the title of the tip. *)
Definition tip_title_lines (tip_div : node) : list string :=
  match find "h3" None tip_div with
  | Some title => ["> **" +:+ get_text title +:+ "**"; ">"]
  | None => []
  end.

(** [lines] as it stands when the loop over the children is over. *)
Definition tip_lines (tip_div : node) : list string :=
  tip_title_lines tip_div ++ flat_map tip_child_lines (children tip_div).

(** [while lines and lines[-1] == ">": lines.pop()] *)
Fixpoint pop_trailing (lines : list string) : list string :=
  match lines with
  | [] => []
  | l :: ls =>
      match pop_trailing ls with
      | [] => if String.eqb l ">" then [] else [l]
      | kept => l :: kept
      end
  end.

(** [process_tip(tip_div)] *)
Definition process_tip (tip_div : node) : option string :=
  match pop_trailing (tip_lines tip_div) with
  | [] => None
  | lines => Some (join nl lines)
  end.

(** *** The title pattern

    [re.sub(r'.*Guidebook:\s*', '', title_text)].  A match that starts at
    some position runs over characters other than the line feed up to the
    last [Guidebook:] of that line (the star is greedy), then over every
    whitespace character that follows.  The scan goes left to right and
    every match is replaced by the empty string. *)

Definition marker : string := "Guidebook:".

(** The offset of the last [marker] that [.*] can reach from the start
    of [s]; [q] counts the characters already passed. *)
Fixpoint last_marker (s : string) (q : nat) (best : option nat) : option nat :=
  match s with
  | EmptyString => best
  | String c s' =>
      if Ascii.eqb c (ascii_of_nat 10) then best
      else last_marker s' (S q) (if String.prefix marker s then Some q else best)
  end.

(** The number of whitespace characters [s] starts with. *)
Fixpoint leading_spaces (s : string) : nat :=
  match s with
  | EmptyString => O
  | String c s' => if isspace c then S (leading_spaces s') else O
  end.

(** [s[n:]] *)
Fixpoint drop_chars (n : nat) (s : string) : string :=
  match n, s with
  | S k, String _ s' => drop_chars k s'
  | _, _ => s
  end.

(** The length of the match of the pattern at the start of [s]. *)
Definition match_length (s : string) : option nat :=
  match last_marker s O None with
  | Some q =>
      let e := (q + String.length marker)%nat in
      Some (e + leading_spaces (drop_chars e s))%nat
  | None => None
  end.

(** The substitution; [skip] characters are still part of the match
    being removed. *)
Fixpoint sub_from (skip : nat) (s : string) : string :=
  match s with
  | EmptyString => EmptyString
  | String c s' =>
      match skip with
      | S k => sub_from k s'
      | O =>
          match match_length s with
          | Some (S k) => sub_from k s'
          | _ => String c (sub_from O s')
          end
      end
  end.

Definition sub_guidebook (title_text : string) : string :=
  sub_from O title_text.

(** *** [extract_content] *)

Definition error_message : string := "Error: Could not find guide content".

(** The title block: what [markdown_content] holds before the loop. *)
Definition title_lines (guide : node) (lesson_number : option Z) : list string :=
  match find "h3" (Some "zero") guide with
  | Some title_elem =>
      let title_text := sub_guidebook (get_text_strip title_elem) in
      let title_text :=
        match lesson_number with
        | Some n => "Lesson " +:+ str_of_int n +:+ ": " +:+ title_text
        | None => title_text
        end in
      ["# " +:+ title_text +:+ nl]
  | None => []
  end.

(** What one child of the guide appends to [markdown_content]. *)
Definition body_fragment (element : node) : list string :=
  if has_name "h3" element || has_name "h5" element then
    let text := get_text_strip element in
    if has_name "h3" element && negb (mem "zero" (get_class element))
    then [nl +:+ "### " +:+ text +:+ nl]
    else if has_name "h5" element
    then [nl +:+ "##### " +:+ text +:+ nl]
    else []
  else if has_name "hr" element then
    if negb (mem "blue" (get_class element))
    then [nl +:+ "---" +:+ nl] else []
  else if has_name "div" element && mem "dialogue" (get_class element) then
    match process_dialog element with
    | Some dialog_text =>
        if truthy dialog_text then [nl +:+ dialog_text +:+ nl] else []
    | None => []
    end
  else if has_name "div" element && mem "guide-tip" (get_class element) then
    match process_tip element with
    | Some tip_text =>
        if truthy tip_text then [nl +:+ tip_text +:+ nl] else []
    | None => []
    end
  else [].

(** The loop over [guide.children]. *)
Definition body_lines (guide : node) : list string :=
  flat_map body_fragment (children guide).

Section Content.

(** [BeautifulSoup(html, 'html.parser')]: the parser of the library.  It
    returns the root of the parse tree, or raises on markup it rejects. *)
Variable BeautifulSoup : string -> outcome node.

(** [extract_content(html, base_url, lesson_number)].  The call of the
    parser stands outside any [try]: what the parser raises, the function
    raises. *)
Definition extract_content (html base_url : string) (lesson_number : option Z)
  : outcome string :=
  match BeautifulSoup html with
  | Raised e => Raised e
  | Returned soup =>
      match find "div" (Some "guide") soup with
      | None => Returned error_message
      | Some guide =>
          Returned (join nl (title_lines guide lesson_number
                             ++ body_lines guide))
      end
  end.

End Content.

End Extractor.

(** ** The batch converter *)

Module Batch.
Import Py Extractor.

(** The part of an HTTP response the script reads: the status, and the
    body that [response.text()] decodes. *)
Record response : Type := Response {
  status : Z;
  text : outcome string
}.

(** An open client session: what [session.get(url, headers=...)] yields. *)
Definition session : Type := string -> outcome response.

Definition base_url : string := "https://duome.eu/guidebook/en/de/".

Definition separator : string := nl +:+ nl +:+ "---" +:+ nl +:+ nl.

(** [valid_results]: the pairs whose content is not [None]. *)
Fixpoint valid_results (results : list (Z * option string))
  : list (Z * string) :=
  match results with
  | [] => []
  | (num, Some content) :: rest => (num, content) :: valid_results rest
  | (_, None) :: rest => valid_results rest
  end.

(** [failed_units]: the identifiers whose content is [None]. *)
Fixpoint failed_units (results : list (Z * option string)) : list Z :=
  match results with
  | [] => []
  | (num, None) :: rest => num :: failed_units rest
  | (_, Some _) :: rest => failed_units rest
  end.

(** [list.sort(key=lambda x: x[0])].  The sort of Python is stable, and a
    stable sort has one possible result; it is computed here by
    insertion, an entry going before the first one with a key at least as
    large. *)
Fixpoint insert_by_unit (x : Z * string) (l : list (Z * string))
  : list (Z * string) :=
  match l with
  | [] => [x]
  | y :: l' => if fst x <=? fst y then x :: l else y :: insert_by_unit x l'
  end.

(** The order of the keys. *)
Definition unit_le (a b : Z * string) : Prop := fst a <= fst b.

Fixpoint sort_by_unit (l : list (Z * string)) : list (Z * string) :=
  match l with
  | [] => []
  | x :: l' => insert_by_unit x (sort_by_unit l')
  end.

(** The loop that fills [combined_content]: [i] is the index
    [enumerate] gives, [n] is [len(valid_results)]. *)
Fixpoint combined_content (i n : Z) (valid : list (Z * string)) : list string :=
  match valid with
  | [] => []
  | (_, content) :: rest =>
      content
      :: (if i <? n - 1 then [separator] else [])
      ++ combined_content (i + 1) n rest
  end.

(** [final_content], the text handed to [f.write]. *)
Definition final_content (results : list (Z * option string)) : string :=
  let valid := sort_by_unit (valid_results results) in
  join EmptyString (combined_content 0 (Z.of_nat (length valid)) valid).

(** [combine_and_save(results, filename)] on a file store: the file is
    opened for writing, so what it held is replaced.  The lines printed to
    the console are left out. *)
Definition combine_and_save (results : list (Z * option string))
    (filename : string) (files : gmap string string)
  : string * gmap string string :=
  (filename, <[filename := final_content results]> files).

Section Fetch.

Variable BeautifulSoup : string -> outcome node.

(** [fetch_page_async(session, url, unit_num)]: every exception raised
    while fetching, reading or extracting the page is caught, and the
    page counts as failed. *)
Definition fetch_page_async (s : session) (url : string) (unit_num : Z)
  : Z * option string :=
  match s url with
  | Returned r =>
      if status r =? 200 then
        match text r with
        | Returned html =>
            match extract_content BeautifulSoup html url (Some unit_num) with
            | Returned content => (unit_num, Some content)
            | Raised _ => (unit_num, None)
            end
        | Raised _ => (unit_num, None)
        end
      else (unit_num, None)
  | Raised _ => (unit_num, None)
  end.

(** [fetch_all_pages(start, end)] with the session the client opens:
    one task per identifier of [range(start, end + 1)];
    [asyncio.gather] returns the results in the order of the tasks. *)
Definition fetch_all_pages (s : session) (start end_ : Z)
  : list (Z * option string) :=
  map (fun i => fetch_page_async s (base_url +:+ str_of_int i) i)
      (range start (end_ + 1)).

(** [main_async(start, end, output_file)] *)
Definition main_async (s : session) (start end_ : Z) (output_file : string)
    (files : gmap string string) : string * gmap string string :=
  combine_and_save (fetch_all_pages s start end_) output_file files.

End Fetch.

End Batch.

(** ** The single-page converter *)

Module Single.
Import Py Extractor Batch.

(** The part of the response of [requests.get] the script reads. *)
Record response : Type := Response {
  status_code : Z;
  text : string
}.

(** [response.raise_for_status()]: a status from 400 to 599 raises. *)
Definition raise_for_status (r : response) : outcome unit :=
  if (400 <=? status_code r) && (status_code r <? 600)
  then Raised "HTTPError" else Returned tt.

(** [fetch_page(url)], over what [requests.get(url, headers=...)] yields. *)
Definition fetch_page (get : string -> outcome response) (url : string)
  : outcome string :=
  match get url with
  | Returned r =>
      match raise_for_status r with
      | Returned _ => Returned (text r)
      | Raised e => Raised e
      end
  | Raised e => Raised e
  end.

(** [save_markdown(content, filename)] on a file store; the write is
    taken to succeed. *)
Definition save_markdown (content filename : string)
    (files : gmap string string) : gmap string string :=
  <[filename := content]> files.

(** The default file name of [save_markdown]. *)
Definition default_filename : string := "duolingo_guidebook.md".

(** [c] is a decimal digit: what [\d] matches below code point 256. *)
Definition isdigit (c : ascii) : bool :=
  let n := nat_of_ascii c in (48 <=? n)%nat && (n <=? 57)%nat.

(** The pattern [(\d+)$] at the start of [s]: one digit or more, then
    the end of the string or the line feed that ends the string.  The
    result is the group of digits. *)
Fixpoint digits_to_end (s : string) : option string :=
  match s with
  | EmptyString => None
  | String c s' =>
      if isdigit c then
        match s' with
        | EmptyString => Some (String c EmptyString)
        | _ =>
            if String.eqb s' nl then Some (String c EmptyString)
            else option_map (String c) (digits_to_end s')
        end
      else None
  end.

(** [re.search(r'/(\d+)$', url)]: the group of the leftmost match. *)
Fixpoint search_lesson (url : string) : option string :=
  match url with
  | EmptyString => None
  | String c url' =>
      if Ascii.eqb c "/"%char then
        match digits_to_end url' with
        | Some group => Some group
        | None => search_lesson url'
        end
      else search_lesson url'
  end.

(** [int(s)] for a string of decimal digits; [None] stands for the
    [ValueError] of any other string. *)
Definition int_of_str (s : string) : option Z :=
  option_map Z.of_uint (NilZero.uint_of_string s).

(** The lesson number [main] derives from the URL. *)
Definition url_lesson_number (url : string) : option Z :=
  match search_lesson url with
  | Some group => int_of_str group
  | None => None
  end.

Section Script.

Variable BeautifulSoup : string -> outcome node.
Variable get : string -> outcome response.

(** [main(url, lesson_number)]: the document, or [None] when an
    exception was caught, with the file store it leaves.  The [try]
    covers the request and the extraction.  It covers the write too: the
    write is taken to succeed, and a run in which it raises, which would
    also return [None], is outside the model.  The lines printed to the
    console are left out. *)
Definition main (url : string) (lesson_number : option Z)
    (files : gmap string string) : option string * gmap string string :=
  let lesson_number :=
    match lesson_number with
    | None => url_lesson_number url
    | Some n => Some n
    end in
  match fetch_page get url with
  | Returned html =>
      match extract_content BeautifulSoup html url lesson_number with
      | Returned markdown_content =>
          (Some markdown_content,
           save_markdown markdown_content default_filename files)
      | Raised _ => (None, files)
      end
  | Raised _ => (None, files)
  end.

End Script.

End Single.

(** ** Notions used to state the properties *)

(** No [Guidebook:] starts in the first line of [s]. *)
Fixpoint no_marker_line (s : string) : bool :=
  match s with
  | EmptyString => true
  | String c s' =>
      if Ascii.eqb c (ascii_of_nat 10) then true
      else negb (String.prefix Extractor.marker s) && no_marker_line s'
  end.

(** The string holds no line feed. *)
Fixpoint no_line_feed (s : string) : bool :=
  match s with
  | EmptyString => true
  | String c s' => negb (Ascii.eqb c (ascii_of_nat 10)) && no_line_feed s'
  end.

(** The [div] children of the captions of an illustration that are not
    playback controls, in document order. *)
Definition caption_candidates (element : node) : list node :=
  flat_map
    (fun child =>
       List.filter (fun d => negb (Py.mem "playback" (Soup.get_class d)))
         (Soup.find_all_children "div" child))
    (List.filter (Soup.marked "div" "caption") (Soup.children element)).

(** The caption texts read from one candidate. *)
Definition caption_of (inner_div : node) : option string * option string :=
  let '(german_parts, english_text) :=
    Extractor.scan_caption (Soup.children inner_div) [] EmptyString in
  (Some (Py.strip (Py.join EmptyString german_parts)),
   Some (Py.strip english_text)).

(** The string holds decimal digits only. *)
Fixpoint all_digits (s : string) : bool :=
  match s with
  | EmptyString => true
  | String c s' => Single.isdigit c && all_digits s'
  end.

(** The two caption variables of the illustration branch. *)
Definition captions (st : Extractor.illustration)
  : option string * option string :=
  (Extractor.caption_german st, Extractor.caption_english st).

(** ** Sample pages *)

Module Examples.
Import Py Soup Extractor Batch.

Definition text_tag (name : string) (a : attrs) (s : string) : node :=
  Tag name a [NavigableString s].

Definition document (cs : list node) : node := Tag "[document]" no_attrs cs.

(** The parser at a page whose parse tree is [soup]. *)
Definition parsed (soup : node) : string -> outcome node :=
  fun _ => Returned soup.

(** Markup that [html.parser] rejects, a marked section with an unknown
    keyword: the constructor of BeautifulSoup raises on it. *)
Definition rejected_markup : string := "<![UNKNOWN[]]>".

Definition rejecting_parser : string -> outcome node :=
  fun _ => Raised "ParserRejectedMarkup".

(** A page with no guide container. *)
Definition page_not_found : node :=
  document
    [Tag "html" no_attrs
       [Tag "body" no_attrs [text_tag "p" no_attrs "Not found"]]].

(** A guide with section headers and no title header. *)
Definition guide_no_title : node :=
  Tag "div" (with_class ["guide"])
    [text_tag "h5" no_attrs "Phrases";
     Tag "hr" no_attrs [];
     text_tag "h3" (with_class ["section"]) "Tips"].

Definition page_no_title : node := document [guide_no_title].

(** A guide with a title and two section headers. *)
Definition h3_title : node :=
  text_tag "h3" (with_class ["zero"]) "German Guidebook: Greetings".
Definition h3_section : node := text_tag "h3" no_attrs "Key phrases".
Definition h5_section : node := text_tag "h5" no_attrs "Tip".

Definition guide_headers : node :=
  Tag "div" (with_class ["guide"]) [h3_title; h3_section; h5_section].

Definition page_headers : node := document [guide_headers].

(** A guide whose only child is a level-5 header marked [zero]. *)
Definition h5_zero : node := text_tag "h5" (with_class ["zero"]) "Basics".

Definition page_h5_zero : node :=
  document [Tag "div" (with_class ["guide"]) [h5_zero]].

(** A dialog phrase: the playback control and the text container. *)
Definition span (cls s : string) : node := text_tag "span" (with_class [cls]) s.

Definition text_ich_bin : node :=
  Tag "div" (with_class [])
    [span "dotted" "Ich"; NavigableString " "; span "dotted" "bin";
     NavigableString ". "; span "cAF" "I am"].

Definition phrase_ich_bin : node :=
  Tag "div" (with_class ["phrase"])
    [Tag "div" (with_class ["playback"]) []; text_ich_bin].

(** A phrase whose only child is the playback control, which holds a
    [div] with an empty class attribute. *)
Definition phrase_nested : node :=
  Tag "div" (with_class ["phrase"])
    [Tag "div" (with_class ["playback"])
       [Tag "div" (with_class []) [span "dotted" "Hallo"]]].

(** Tips. *)
Definition tip (cs : list node) : node := Tag "div" (with_class ["guide-tip"]) cs.

Definition tip_good_to_know : node :=
  tip [text_tag "h3" no_attrs "Good to know"; text_tag "p" no_attrs "Hello"].

Definition tip_h4 : node :=
  tip [text_tag "h4" no_attrs "Word order"; text_tag "p" no_attrs "Hello"].

Definition tip_h3_last : node :=
  tip [text_tag "p" no_attrs "Hello"; text_tag "h3" no_attrs "Word order"].

(** Illustrations. *)
Definition img (src : string) : node := Tag "img" (with_src src) [].

Definition caption_hallo : node :=
  Tag "div" (with_class ["caption"])
    [Tag "div" (with_class ["playback"]) [];
     Tag "div" no_attrs
       [NavigableString "Hallo!"; Tag "br" no_attrs []; span "cAF" "Hello!"]].

Definition illustration_tracked : node :=
  Tag "div" (with_class ["illustration"])
    [img "https://duome.eu/img/hallo.svg";
     img "https://mc.yandex.ru/watch/1";
     caption_hallo].

Definition illustration_only_tracker : node :=
  Tag "div" (with_class ["illustration"]) [img "https://mc.yandex.ru/watch/1"].

Definition illustration_empty_src : node :=
  Tag "div" (with_class ["illustration"]) [img "a.png"; img EmptyString].

(** A phrase whose text container holds a translation and no word. *)
Definition text_translation_only : node :=
  Tag "div" (with_class []) [NavigableString " "; span "cAF" "Hello"].

Definition phrase_translation_only : node :=
  Tag "div" (with_class ["phrase"])
    [Tag "div" (with_class ["playback"]) []; text_translation_only].

(** A dialogue of one storyline. *)
Definition dialogue_ich_bin : node :=
  Tag "div" (with_class ["dialogue"])
    [Tag "div" (with_class ["storyline"]) [phrase_ich_bin]].

End Examples.

(** * Properties *)

Import Py Soup Extractor Batch.

(** Runs through the members of a concrete list. *)
Ltac in_cases H :=
  vm_compute in H;
  repeat (destruct H as [<- | H]; [try reflexivity; try discriminate |]);
  try contradiction.

(** Proves [first_such f n x] on a concrete tree, [x] being the
    descendant of index [i]. *)
Ltac first_such_at i :=
  match goal with
  | |- first_such _ ?n _ =>
      exists (firstn i (descendants n)), (skipn (S i) (descendants n));
      split; [reflexivity | split; [reflexivity |]];
      let d := fresh "d" in
      let Hd := fresh "Hd" in
      intros d Hd; in_cases Hd
  end.

(** ** Strings *)

Lemma append_cons (c : ascii) (s t : string) :
  String c s +:+ t = String c (s +:+ t).
Proof. reflexivity. Qed.

Lemma append_empty_l (s : string) : EmptyString +:+ s = s.
Proof. reflexivity. Qed.

Lemma append_empty_r (s : string) : s +:+ EmptyString = s.
Proof.
  induction s as [|c s IH]; [reflexivity |].
  now rewrite append_cons, IH.
Qed.

Lemma append_assoc (a b c : string) : (a +:+ b) +:+ c = a +:+ (b +:+ c).
Proof.
  induction a as [|x a IH]; [reflexivity |].
  now rewrite !append_cons, IH.
Qed.

Lemma truthy_true (s : string) : truthy s = true <-> s <> EmptyString.
Proof. destruct s; simpl; split; intros; congruence. Qed.

Lemma truthy_append_r (a b : string) : truthy b = true -> truthy (a +:+ b) = true.
Proof. destruct a; [now rewrite append_empty_l | reflexivity]. Qed.

Lemma mem_In (x : string) (xs : list string) : mem x xs = true <-> In x xs.
Proof.
  unfold mem. rewrite existsb_exists. split.
  - intros (y & Hy & E). apply String.eqb_eq in E. now subst.
  - intros H. exists x. split; [assumption | apply String.eqb_refl].
Qed.

(** [join] over a list with a head. *)
Lemma join_cons (sep x : string) (l : list string) :
  l <> [] -> join sep (x :: l) = x +:+ sep +:+ join sep l.
Proof. destruct l; [congruence | reflexivity]. Qed.

Lemma join_empty_cons (x : string) (l : list string) :
  join EmptyString (x :: l) = x +:+ join EmptyString l.
Proof.
  destruct l as [|y l].
  - symmetry. apply append_empty_r.
  - reflexivity.
Qed.

Lemma has_space_append (a b : string) :
  has_space (a +:+ " " +:+ b) = true.
Proof.
  induction a as [|c a IH]; [reflexivity |].
  rewrite append_cons. simpl. rewrite IH. apply orb_true_r.
Qed.

(** A search value with no space in it matches a token list only through
    one of the tokens. *)
Lemma matches_class_tokens (cls : string) (tokens : list string) :
  has_space cls = false -> truthy cls = true ->
  matches_class cls (Some tokens) = mem cls tokens.
Proof.
  intros Hsp Hne. unfold matches_class.
  destruct (mem cls tokens) eqn:Hm; [reflexivity |]. simpl.
  apply String.eqb_neq. intros E.
  destruct tokens as [|x [|y l]].
  - simpl in E. subst cls. discriminate.
  - simpl in E. subst x. simpl in Hm. now rewrite String.eqb_refl in Hm.
  - change (join " " (x :: y :: l)) with (x +:+ " " +:+ join " " (y :: l)) in E.
    rewrite <- E, has_space_append in Hsp. discriminate.
Qed.

(** ** Searching the tree *)

Lemma head_filter_None {A} (f : A -> bool) (l : list A) :
  (forall x, In x l -> f x = false) -> head (List.filter f l) = None.
Proof.
  induction l as [|x l IH]; intros H; simpl; [reflexivity |].
  rewrite (H x) by now left. apply IH. intros y Hy. apply H. now right.
Qed.

Lemma head_filter_first {A} (f : A -> bool) (before after : list A) (x : A) :
  (forall d, In d before -> f d = false) -> f x = true ->
  head (List.filter f (before ++ x :: after)) = Some x.
Proof.
  induction before as [|b before IH]; intros Hb Hx; simpl.
  - now rewrite Hx.
  - rewrite (Hb b) by now left. apply IH; [|assumption].
    intros d Hd. apply Hb. now right.
Qed.

Lemma head_filter_Some {A} (f : A -> bool) (l : list A) (x : A) :
  head (List.filter f l) = Some x ->
  exists before after,
    l = before ++ x :: after /\ f x = true
    /\ forall d, In d before -> f d = false.
Proof.
  induction l as [|y l IH]; simpl; [discriminate |].
  destruct (f y) eqn:Hy; simpl.
  - intros [= ->]. exists [], l. repeat split; [assumption | intros d []].
  - intros H. destruct (IH H) as (before & after & -> & Hx & Hb).
    exists (y :: before), after. repeat split; [assumption |].
    intros d [<- | Hd]; [assumption | now apply Hb].
Qed.

(** [find] answers [None] exactly when no descendant passes the filter. *)
Lemma find_None (name : string) (cls : option string) (n : node) :
  (forall d, In d (descendants n) -> matches name cls d = false) ->
  find name cls n = None.
Proof. apply head_filter_None. Qed.

(** [find] answers the first descendant, in document order, that passes
    the filter. *)
Lemma find_first (name : string) (cls : option string) (n x : node)
    (before after : list node) :
  descendants n = before ++ x :: after ->
  (forall d, In d before -> matches name cls d = false) ->
  matches name cls x = true ->
  find name cls n = Some x.
Proof.
  intros E Hb Hx. unfold find, find_all. rewrite E.
  now apply head_filter_first.
Qed.

(** A class marker with no space in it is matched by [find] only on the
    elements that carry it. *)
Lemma matches_marker (name cls : string) (d : node) :
  has_space cls = false -> truthy cls = true ->
  mem cls (get_class d) = false ->
  matches name (Some cls) d = false.
Proof.
  intros Hsp Hne Hm. destruct d as [s | s | nm a cs]; try reflexivity.
  unfold matches. apply andb_false_iff. right.
  simpl in Hm. destruct (attr_class a) as [tokens |]; simpl in Hm.
  - now rewrite matches_class_tokens.
  - simpl. now rewrite Hne.
Qed.

Lemma matches_marker_true (name cls : string) (d : node) :
  has_space cls = false -> truthy cls = true ->
  matches name (Some cls) d = has_name name d && mem cls (get_class d).
Proof.
  intros Hsp Hne. destruct d as [s | s | nm a cs]; try reflexivity.
  simpl. f_equal. destruct (attr_class a) as [tokens |]; simpl.
  - now apply matches_class_tokens.
  - now rewrite Hne.
Qed.

(** ** The content extractor: the guide container and the title *)

(** C1 (as amended): when the parser accepts the markup and no element
    of the parse tree carries the class marker [guide], [extract_content]
    returns the fixed error string, whatever the base URL and the lesson
    hint, and raises nothing.  When the parser rejects the markup,
    [extract_content] raises what the parser raises. *)
Theorem extract_content_no_guide (BeautifulSoup : string -> outcome node)
    (html base_url : string) (lesson_number : option Z) :
  (forall soup : node,
      BeautifulSoup html = Returned soup ->
      (forall d, In d (descendants soup) -> mem "guide" (get_class d) = false) ->
      extract_content BeautifulSoup html base_url lesson_number
      = Returned "Error: Could not find guide content")
  /\ (forall e : string,
        BeautifulSoup html = Raised e ->
        extract_content BeautifulSoup html base_url lesson_number = Raised e).
Proof.
  unfold extract_content. split.
  - intros soup -> Hno. rewrite find_None; [reflexivity |].
    intros d Hd. apply matches_marker; auto.
  - now intros e ->.
Qed.

Lemma extract_content_no_guide_witness :
  extract_content (Examples.parsed Examples.page_not_found)
    "<html><body><p>Not found</p></body></html>"
    "https://duome.eu/guidebook/en/de/999" (Some 999)
  = Returned "Error: Could not find guide content".
Proof.
  apply (proj1 (extract_content_no_guide
                  (Examples.parsed Examples.page_not_found)
                  "<html><body><p>Not found</p></body></html>"
                  "https://duome.eu/guidebook/en/de/999" (Some 999))
           Examples.page_not_found).
  - reflexivity.
  - intros d Hd. in_cases Hd.
Defined.

(** The claim C1 as the specification words it fails on markup that the
    parser rejects: the markup holds no element at all, and
    [extract_content] raises instead of returning the error string. *)
Lemma rejected_markup_raises :
  contains "guide" Examples.rejected_markup = false
  /\ extract_content Examples.rejecting_parser Examples.rejected_markup
       "https://duome.eu/guidebook/en/de/1" None
     = Raised "ParserRejectedMarkup".
Proof. split; reflexivity. Qed.

(** Every fragment of the body starts with a line feed. *)
Lemma body_fragment_nl (element : node) :
  Forall (fun f => exists r, f = nl +:+ r) (body_fragment element).
Proof.
  unfold body_fragment.
  repeat match goal with
         | |- context [if ?b then _ else _] => destruct b
         | |- context [match ?o with Some _ => _ | None => _ end] => destruct o
         end;
    repeat constructor; eexists; reflexivity.
Qed.

Lemma body_lines_nl (guide : node) :
  Forall (fun f => exists r, f = nl +:+ r) (body_lines guide).
Proof.
  unfold body_lines. induction (children guide) as [|c cs IH]; simpl.
  - constructor.
  - apply Forall_app. split; [apply body_fragment_nl | exact IH].
Qed.

Lemma join_nl_prefix (l : list string) :
  Forall (fun f => exists r, f = nl +:+ r) l ->
  String.prefix "# " (join nl l) = false.
Proof.
  intros H. destruct H as [|x l (r & ->) H]; [reflexivity |].
  destruct l as [|y l]; [reflexivity |].
  rewrite join_cons by discriminate. reflexivity.
Qed.

(** C10: when the guide container holds no [h3] carrying the marker
    [zero], [extract_content] builds no title block: the output is the
    body fragments alone, it does not start with a title line, and it is
    the same with a lesson hint as without one. *)
Theorem extract_content_no_title (BeautifulSoup : string -> outcome node)
    (html base_url : string) (soup guide : node) :
  BeautifulSoup html = Returned soup ->
  find "div" (Some "guide") soup = Some guide ->
  (forall d, In d (descendants guide) -> has_name "h3" d = true ->
             mem "zero" (get_class d) = false) ->
  forall lesson_number : option Z,
    title_lines guide lesson_number = []
    /\ extract_content BeautifulSoup html base_url lesson_number
       = Returned (join nl (body_lines guide))
    /\ String.prefix "# " (join nl (body_lines guide)) = false
    /\ extract_content BeautifulSoup html base_url lesson_number
       = extract_content BeautifulSoup html base_url None.
Proof.
  intros Hsoup Hguide Hno lesson_number.
  assert (Hfind : find "h3" (Some "zero") guide = None).
  { apply find_None. intros d Hd.
    rewrite matches_marker_true by reflexivity.
    destruct (has_name "h3" d) eqn:Hn; [|reflexivity].
    now rewrite (Hno d Hd Hn). }
  assert (Ht : forall n, title_lines guide n = []).
  { intros n. unfold title_lines. now rewrite Hfind. }
  assert (He : forall n, extract_content BeautifulSoup html base_url n
                         = Returned (join nl (body_lines guide))).
  { intros n. unfold extract_content. now rewrite Hsoup, Hguide, Ht. }
  repeat split.
  - apply Ht.
  - apply He.
  - apply join_nl_prefix, body_lines_nl.
  - now rewrite !He.
Qed.

Lemma extract_content_no_title_witness :
  title_lines Examples.guide_no_title (Some 3) = []
  /\ extract_content (Examples.parsed Examples.page_no_title) "<html>" ""
       (Some 3)
     = Returned (join nl (body_lines Examples.guide_no_title))
  /\ String.prefix "# " (join nl (body_lines Examples.guide_no_title)) = false
  /\ extract_content (Examples.parsed Examples.page_no_title) "<html>" ""
       (Some 3)
     = extract_content (Examples.parsed Examples.page_no_title) "<html>" ""
         None.
Proof.
  apply (extract_content_no_title (Examples.parsed Examples.page_no_title)
           "<html>" "" Examples.page_no_title Examples.guide_no_title).
  - reflexivity.
  - reflexivity.
  - intros d Hd Hn. in_cases Hd.
Defined.

(** ** The content extractor: headers of the body *)

(** C7 (as amended): in the body traversal a direct child [h3] that does
    not carry [zero] gives the fragment of a [###] line, a direct child
    [h3] that carries [zero] gives nothing, and a direct child [h5] gives
    the fragment of a [#####] line whether or not it carries [zero].  The
    fragment stands in the output between those of the children before
    and after it. *)
Theorem extract_content_headers (BeautifulSoup : string -> outcome node)
    (html base_url : string) (lesson_number : option Z)
    (soup guide element : node) (pre post : list node) :
  BeautifulSoup html = Returned soup ->
  find "div" (Some "guide") soup = Some guide ->
  children guide = pre ++ element :: post ->
  exists fragment : list string,
    extract_content BeautifulSoup html base_url lesson_number
    = Returned (join nl (title_lines guide lesson_number
                         ++ flat_map body_fragment pre
                         ++ fragment
                         ++ flat_map body_fragment post))
    /\ (has_name "h3" element = true ->
        fragment = if mem "zero" (get_class element) then []
                   else [nl +:+ "### " +:+ get_text_strip element +:+ nl])
    /\ (has_name "h5" element = true ->
        fragment = [nl +:+ "##### " +:+ get_text_strip element +:+ nl]).
Proof.
  intros Hsoup Hguide Hch. exists (body_fragment element). split; [|split].
  - unfold extract_content, body_lines.
    rewrite Hsoup, Hguide, Hch, flat_map_app. reflexivity.
  - intros Hn. destruct element as [s | s | nm a cs]; try discriminate.
    simpl in Hn. apply String.eqb_eq in Hn. subst nm.
    unfold body_fragment. simpl.
    now destruct (mem "zero" (default [] (attr_class a))).
  - intros Hn. unfold body_fragment. rewrite Hn, orb_true_r.
    destruct element as [s | s | nm a cs]; try discriminate.
    simpl in Hn. apply String.eqb_eq in Hn. subst nm. reflexivity.
Qed.

Lemma extract_content_headers_witness :
  exists fragment : list string,
    extract_content (Examples.parsed Examples.page_headers) "<html>" ""
      (Some 2)
    = Returned (join nl (title_lines Examples.guide_headers (Some 2)
                         ++ flat_map body_fragment [Examples.h3_title]
                         ++ fragment
                         ++ flat_map body_fragment [Examples.h5_section]))
    /\ (has_name "h3" Examples.h3_section = true ->
        fragment = if mem "zero" (get_class Examples.h3_section) then []
                   else [nl +:+ "### "
                         +:+ get_text_strip Examples.h3_section +:+ nl])
    /\ (has_name "h5" Examples.h3_section = true ->
        fragment = [nl +:+ "##### "
                    +:+ get_text_strip Examples.h3_section +:+ nl]).
Proof.
  apply (extract_content_headers (Examples.parsed Examples.page_headers)
           "<html>" "" (Some 2) Examples.page_headers Examples.guide_headers
           Examples.h3_section [Examples.h3_title] [Examples.h5_section]);
    reflexivity.
Defined.

(** The claim C7 as the specification words it fails on a level-5 header
    marked [zero]: the header is not the title and it is repeated in the
    body. *)
Lemma h5_zero_is_repeated :
  has_name "h5" Examples.h5_zero = true
  /\ mem "zero" (get_class Examples.h5_zero) = true
  /\ body_fragment Examples.h5_zero = [nl +:+ "##### Basics" +:+ nl]
  /\ extract_content (Examples.parsed Examples.page_h5_zero) "<html>" "" None
     = Returned (nl +:+ "##### Basics" +:+ nl).
Proof. repeat split. Qed.

(** The title pattern removes everything up to the last [Guidebook:] of
    a line, with the whitespace after it. *)
Example sub_guidebook_title :
  sub_guidebook "German Guidebook: Greetings" = "Greetings".
Proof. reflexivity. Qed.

Example sub_guidebook_lines :
  sub_guidebook ("abc" +:+ nl +:+ "German Guidebook: Guidebook:  " +:+ nl
                 +:+ "X Guidebook:Y")
  = "abc" +:+ nl +:+ "Y".
Proof. reflexivity. Qed.

(** A page with a title and two section headers. *)
Example extract_content_page :
  extract_content (Examples.parsed Examples.page_headers) "<html>" "" (Some 2)
  = Returned ("# Lesson 2: Greetings" +:+ nl +:+ nl +:+ nl
              +:+ "### Key phrases" +:+ nl +:+ nl +:+ nl
              +:+ "##### Tip" +:+ nl).
Proof. reflexivity. Qed.

(** ** The dialog processor *)

Lemma truthy_append_l (a b : string) : truthy a = true -> truthy (a +:+ b) = true.
Proof. destruct a; [discriminate | reflexivity]. Qed.

(** What [class_=''] matches. *)
Lemma matches_class_empty (v : option (list string)) (nm : string) (cs : list node) :
  matches_class EmptyString v = class_is_empty (Tag nm (Attrs v None) cs).
Proof.
  destruct v as [[|x l] |]; try reflexivity.
  unfold matches_class, class_is_empty. cbn [attr_class].
  destruct (mem EmptyString (x :: l)) eqn:Hm; [reflexivity |]. simpl.
  apply String.eqb_neq. intros E.
  assert (Hx : truthy x = true).
  { destruct x; [|reflexivity]. simpl in Hm. discriminate. }
  destruct l as [|y l].
  - simpl in E. subst x. discriminate.
  - change (x +:+ " " +:+ join " " (y :: l) = EmptyString) in E.
    apply (truthy_append_l _ (" " +:+ join " " (y :: l))) in Hx.
    rewrite E in Hx. discriminate.
Qed.

Lemma matches_plain_div (d : node) :
  matches "div" (Some EmptyString) d = plain_div d.
Proof.
  destruct d as [s | s | nm [v src] cs]; try reflexivity.
  unfold matches, plain_div. cbn [attr_class has_name]. f_equal.
  rewrite (matches_class_empty v nm cs). reflexivity.
Qed.

(** [find] in terms of [first_such]. *)
Lemma find_Some_first (name : string) (cls : option string) (n x : node) :
  find name cls n = Some x <-> first_such (matches name cls) n x.
Proof.
  split.
  - intros H. apply head_filter_Some in H.
    destruct H as (before & after & E & Hx & Hb). now exists before, after.
  - intros (before & after & E & Hx & Hb). now apply (find_first _ _ _ _ before after).
Qed.

Lemma first_such_ext (f g : node -> bool) (n x : node) :
  (forall d, f d = g d) -> first_such f n x -> first_such g n x.
Proof.
  intros Hfg (before & after & E & Hx & Hb). exists before, after.
  repeat split; [assumption | now rewrite <- Hfg |].
  intros d Hd. rewrite <- Hfg. now apply Hb.
Qed.

Lemma find_marked (name cls : string) (n x : node) :
  has_space cls = false -> truthy cls = true ->
  first_such (marked name cls) n x -> find name (Some cls) n = Some x.
Proof.
  intros Hsp Hne H. apply find_Some_first.
  apply (first_such_ext (marked name cls)); [|assumption].
  intros d. symmetry. now apply matches_marker_true.
Qed.

Lemma find_all_marked (name cls : string) (n : node) :
  has_space cls = false -> truthy cls = true ->
  find_all name (Some cls) n = List.filter (marked name cls) (descendants n).
Proof.
  intros Hsp Hne. unfold find_all. apply filter_ext.
  intros d. now apply matches_marker_true.
Qed.

Lemma find_plain_div (n x : node) :
  first_such plain_div n x -> find "div" (Some EmptyString) n = Some x.
Proof.
  intros H. apply find_Some_first.
  apply (first_such_ext plain_div); [|assumption].
  intros d. symmetry. apply matches_plain_div.
Qed.

(** The punctuation loop stops at the first string child that strips to
    a punctuation token. *)
Lemma scan_punctuation_first (pre post : list node) (c : node) (tok : string) :
  (forall c' s, In c' pre -> as_str c' = Some s ->
                mem (strip s) punctuation = false) ->
  as_str c = Some tok -> mem (strip tok) punctuation = true ->
  scan_punctuation (pre ++ c :: post) = strip tok.
Proof.
  intros Hpre Hc Htok. induction pre as [|p pre IH]; cbn [app scan_punctuation].
  - now rewrite Hc, Htok.
  - destruct (as_str p) as [s |] eqn:Hp.
    + rewrite (Hpre p s) by (auto; now left).
      apply IH. intros c' s' Hin. apply Hpre. now right.
    + apply IH. intros c' s' Hin. apply Hpre. now right.
Qed.

Lemma mem_punctuation_truthy (t : string) :
  mem t punctuation = true -> truthy t = true.
Proof.
  intros H. apply mem_In in H. simpl in H.
  destruct H as [<- | [<- | [<- | [<- | []]]]]; reflexivity.
Qed.

(** C4: the sentence is the texts of the dotted spans joined by single
    spaces, then the first direct string child that strips to one of the
    tokens [.], [?], [!], [,] with no space before it, then, on a second
    line, the text of the first [cAF] span.  At the spans [Ich] and
    [bin], the token [.] and the translation [I am] the result is the
    two lines [Ich bin.] and [I am]. *)
Theorem extract_dialog_text_sentence
    (phrase_div text_div english_span tok_node : node)
    (pre post : list node) (tok : string) :
  first_such plain_div phrase_div text_div ->
  children text_div = pre ++ tok_node :: post ->
  (forall c s, In c pre -> as_str c = Some s ->
               mem (strip s) punctuation = false) ->
  as_str tok_node = Some tok ->
  mem (strip tok) punctuation = true ->
  first_such (marked "span" "cAF") text_div english_span ->
  truthy (get_text english_span) = true ->
  extract_dialog_text phrase_div
  = Some (join " " (map get_text
                      (List.filter (marked "span" "dotted")
                         (descendants text_div)))
          +:+ strip tok +:+ nl +:+ get_text english_span).
Proof.
  intros Hdiv Hch Hpre Htok Hmem Heng Hne.
  unfold extract_dialog_text. rewrite (find_plain_div _ _ Hdiv).
  unfold dialog_text_of.
  rewrite find_all_marked by reflexivity.
  rewrite (find_marked "span" "cAF" _ _ eq_refl eq_refl Heng).
  rewrite Hch, (scan_punctuation_first pre post tok_node tok Hpre Htok Hmem).
  rewrite Hne.
  rewrite (truthy_append_r _ _ (mem_punctuation_truthy _ Hmem)). simpl.
  now rewrite append_assoc.
Qed.

Lemma extract_dialog_text_sentence_witness :
  extract_dialog_text Examples.phrase_ich_bin
  = Some ("Ich bin." +:+ nl +:+ "I am").
Proof.
  apply (extract_dialog_text_sentence
           Examples.phrase_ich_bin Examples.text_ich_bin
           (Examples.span "cAF" "I am") (NavigableString ". ")
           [Examples.span "dotted" "Ich"; NavigableString " ";
            Examples.span "dotted" "bin"]
           [Examples.span "cAF" "I am"] ". ").
  - first_such_at 1%nat.
  - reflexivity.
  - intros c s Hc Hs. in_cases Hc; now inversion Hs.
  - reflexivity.
  - reflexivity.
  - first_such_at 6%nat.
  - reflexivity.
Defined.

(** C9 (as amended): the text container is the first [div] below the
    phrase, at any depth and in document order, whose class attribute is
    missing or empty; the dialog line is built from that container, and
    when the phrase holds no such [div] the result is [None]. *)
Theorem extract_dialog_text_container (phrase_div : node) :
  ((forall d, In d (descendants phrase_div) -> plain_div d = false) ->
   extract_dialog_text phrase_div = None)
  /\ (forall text_div : node,
        first_such plain_div phrase_div text_div ->
        extract_dialog_text phrase_div = dialog_text_of text_div).
Proof.
  split.
  - intros Hno. unfold extract_dialog_text. rewrite find_None; [reflexivity |].
    intros d Hd. rewrite matches_plain_div. now apply Hno.
  - intros text_div Hdiv. unfold extract_dialog_text.
    now rewrite (find_plain_div _ _ Hdiv).
Qed.

Lemma extract_dialog_text_container_witness :
  extract_dialog_text Examples.phrase_ich_bin
  = dialog_text_of Examples.text_ich_bin.
Proof.
  apply (proj2 (extract_dialog_text_container Examples.phrase_ich_bin)).
  first_such_at 1%nat.
Defined.

(** The claim C9 as the specification words it fails on a phrase none of
    whose children has an empty class attribute: the [div] with the empty
    class attribute inside the playback control is taken as the text
    container, and a dialog line comes out. *)
Lemma nested_container_is_found :
  Forall (fun c => class_is_empty c = false) (children Examples.phrase_nested)
  /\ extract_dialog_text Examples.phrase_nested = Some "Hallo".
Proof. split; [repeat constructor | reflexivity]. Qed.

(** ** The tip processor *)

Lemma matches_name (name : string) (d : node) :
  matches name None d = has_name name d.
Proof. destruct d; try reflexivity. apply andb_true_r. Qed.

Lemma find_named (name : string) (n x : node) :
  first_such (has_name name) n x -> find name None n = Some x.
Proof.
  intros H. apply find_Some_first.
  apply (first_such_ext (has_name name)); [|assumption].
  intros d. symmetry. apply matches_name.
Qed.

Lemma pop_trailing_cons (l : string) (ls : list string) :
  l <> ">" -> pop_trailing (l :: ls) = l :: pop_trailing ls.
Proof.
  intros Hl. simpl. apply String.eqb_neq in Hl.
  destruct (pop_trailing ls); [now rewrite Hl | reflexivity].
Qed.

(** The loop that pops the trailing lines removes a run of [>] lines at
    the end, the whole of it, and nothing else. *)
Lemma pop_trailing_spec (lines : list string) :
  exists n : nat,
    lines = pop_trailing lines ++ repeat ">" n
    /\ last (pop_trailing lines) <> Some ">".
Proof.
  induction lines as [|l ls (n & E & Hlast)].
  - exists O. split; [reflexivity | discriminate].
  - simpl. destruct (pop_trailing ls) as [|k kept] eqn:Hpop.
    + destruct (String.eqb l ">") eqn:Hl.
      * apply String.eqb_eq in Hl. subst l. exists (S n).
        split; [simpl; now f_equal | discriminate].
      * exists n. split; [simpl; now f_equal |].
        simpl. intros [= ->]. now rewrite String.eqb_refl in Hl.
    + exists n. split; [simpl; now f_equal |].
      now rewrite last_cons_cons.
Qed.

(** The caption loops leave the image source as it is. *)
Lemma caption_steps_img_src (divs : list node) (st : illustration) :
  img_src (fold_left caption_step divs st) = img_src st.
Proof.
  revert st. induction divs as [|d divs IH]; intros st; [reflexivity |].
  simpl. rewrite IH. unfold caption_step.
  destruct (mem "playback" (get_class d)); [reflexivity |].
  now destruct (scan_caption (children d) [] EmptyString).
Qed.

Lemma illustration_step_img_src (st : illustration) (child : node) :
  img_src (illustration_step st child)
  = if qualifying_img child then Some (get_src child) else img_src st.
Proof.
  unfold illustration_step, qualifying_img.
  destruct (has_name "img" child) eqn:Himg; simpl.
  - now destruct (truthy (get_src child) && negb (contains "yandex" (get_src child))).
  - destruct (has_name "div" child && mem "caption" (get_class child));
      [apply caption_steps_img_src | reflexivity].
Qed.

(** After the loop over the children, [img_src] holds the source of the
    last qualifying image. *)
Lemma scan_img_src (cs : list node) (st : illustration) :
  img_src (fold_left illustration_step cs st)
  = match last (List.filter qualifying_img cs) with
    | Some i => Some (get_src i)
    | None => img_src st
    end.
Proof.
  revert st. induction cs as [|c cs IH]; intros st; [reflexivity |].
  simpl. rewrite IH, illustration_step_img_src.
  destruct (qualifying_img c) eqn:Hq; [|reflexivity].
  rewrite last_cons. now destruct (last (List.filter qualifying_img cs)).
Qed.

(** C8 (as amended): the image of an illustration is the last direct
    [img] child whose [src] is not empty and does not hold [yandex]; its
    source is the one in the figure line, which stands between two empty
    blockquote lines.  When no [img] child qualifies, the illustration
    gives no line at all. *)
Theorem illustration_image (element : node) :
  marked "div" "illustration" element = true ->
  match last (List.filter qualifying_img (children element)) with
  | Some i =>
      exists caption_html : string,
        tip_child_lines element
        = [">";
           if truthy caption_html
           then img_tag (get_src i) +:+ "<figcaption>" +:+ caption_html
                +:+ "</figcaption></figure>"
           else img_tag (get_src i) +:+ "</figure>";
           ">"]
  | None => tip_child_lines element = []
  end.
Proof.
  intros Hm. unfold marked in Hm. apply andb_true_iff in Hm as [Hdiv Hill].
  assert (Hp : has_name "p" element = false).
  { destruct element as [s | s | nm a cs]; try discriminate.
    simpl in *. apply String.eqb_eq in Hdiv. now subst nm. }
  unfold tip_child_lines. rewrite Hp, Hdiv, Hill. cbn [andb].
  unfold figure_lines, scan_illustration. rewrite scan_img_src.
  destruct (last (List.filter qualifying_img (children element))) as [i |] eqn:Hlast;
    [|reflexivity].
  assert (Hq : qualifying_img i = true).
  { apply last_Some_elem_of, list_elem_of_In, filter_In in Hlast. tauto. }
  unfold qualifying_img in Hq. apply andb_true_iff in Hq as [Hq _].
  apply andb_true_iff in Hq as [_ Hsrc]. rewrite Hsrc.
  eexists. reflexivity.
Qed.

Lemma illustration_image_witness :
  exists caption_html : string,
    tip_child_lines Examples.illustration_tracked
    = [">";
       if truthy caption_html
       then img_tag "https://duome.eu/img/hallo.svg" +:+ "<figcaption>"
            +:+ caption_html +:+ "</figcaption></figure>"
       else img_tag "https://duome.eu/img/hallo.svg" +:+ "</figure>";
       ">"].
Proof.
  apply (illustration_image Examples.illustration_tracked). reflexivity.
Defined.

(** The claim C8 as the specification words it fails on an illustration
    whose last image has an empty [src]: that source does not hold
    [yandex], yet the figure shows the image before it. *)
Lemma empty_src_is_skipped :
  last (List.filter
          (fun c => has_name "img" c && negb (contains "yandex" (get_src c)))
          (children Examples.illustration_empty_src))
  = Some (Examples.img EmptyString)
  /\ tip_child_lines Examples.illustration_empty_src
     = [">"; img_tag "a.png" +:+ "</figure>"; ">"].
Proof. split; reflexivity. Qed.

(** An illustration whose only image is a tracking pixel gives no line. *)
Example tracker_gives_no_figure :
  tip_child_lines Examples.illustration_only_tracker = [].
Proof. reflexivity. Qed.

(** The figure of an illustration with a caption: the text before the
    line break is the caption, the translation after it is not read. *)
Example tracked_illustration_figure :
  tip_child_lines Examples.illustration_tracked
  = [">";
     img_tag "https://duome.eu/img/hallo.svg"
     +:+ "<figcaption>Hallo!</figcaption></figure>";
     ">"].
Proof. reflexivity. Qed.

(** What the body of the loop adds for a paragraph with visible text. *)
Lemma tip_child_lines_p (element : node) :
  has_name "p" element = true ->
  truthy (strip (get_text element)) = true ->
  tip_child_lines element = ["> " +:+ get_text element; ">"].
Proof.
  intros Hp Hs. unfold tip_child_lines. rewrite Hp, Hs.
  destruct (get_text element); [discriminate | reflexivity].
Qed.

(** A child that is neither a paragraph nor a [div] adds nothing: this
    covers the headers of every level and the horizontal rules. *)
Lemma tip_child_lines_other (element : node) :
  has_name "p" element = false -> has_name "div" element = false ->
  tip_child_lines element = [].
Proof. intros Hp Hd. unfold tip_child_lines. now rewrite Hp, Hd. Qed.

Lemma tip_child_lines_skip (element : node) :
  has_name "p" element = false ->
  marked "div" "illustration" element = false ->
  tip_child_lines element = [].
Proof.
  intros Hp Hi. unfold tip_child_lines. rewrite Hp.
  unfold marked in Hi. now rewrite Hi.
Qed.

Lemma flat_map_skip (cs : list node) :
  (forall c, In c cs ->
             has_name "p" c = false /\ marked "div" "illustration" c = false) ->
  flat_map tip_child_lines cs = [].
Proof.
  induction cs as [|c cs IH]; intros H; [reflexivity |].
  simpl. rewrite tip_child_lines_skip; try (apply H; now left).
  apply IH. intros c' Hc'. apply H. now right.
Qed.

(** C5: a tip whose title is [Good to know], with one paragraph [Hello]
    and no illustration, gives the three lines [> **Good to know**], [>]
    and [> Hello]; and for every tip the lines returned are the lines
    assembled without the run of empty blockquote lines at their end. *)
Theorem process_tip_trailing :
  (forall (tip_div title p : node) (pre post : list node),
      first_such (has_name "h3") tip_div title ->
      get_text title = "Good to know" ->
      children tip_div = pre ++ p :: post ->
      has_name "p" p = true ->
      get_text p = "Hello" ->
      (forall c, In c (pre ++ post) ->
                 has_name "p" c = false
                 /\ marked "div" "illustration" c = false) ->
      process_tip tip_div
      = Some ("> **Good to know**" +:+ nl +:+ ">" +:+ nl +:+ "> Hello"))
  /\ (forall tip_div : node,
        exists (kept : list string) (n : nat),
          tip_lines tip_div = kept ++ repeat ">" n
          /\ last kept <> Some ">"
          /\ process_tip tip_div
             = match kept with
               | [] => None
               | _ => Some (join nl kept)
               end).
Proof.
  split.
  - intros tip_div title p pre post Htitle Ht Hch Hp Hhello Hrest.
    unfold process_tip, tip_lines, tip_title_lines.
    rewrite (find_named _ _ _ Htitle), Ht, Hch, flat_map_app.
    rewrite flat_map_skip by (intros c Hc; apply Hrest, in_or_app; now left).
    cbn [flat_map app].
    rewrite tip_child_lines_p by (rewrite ?Hhello; auto).
    rewrite flat_map_skip by (intros c Hc; apply Hrest, in_or_app; now right).
    rewrite Hhello. reflexivity.
  - intros tip_div. destruct (pop_trailing_spec (tip_lines tip_div)) as (n & E & Hlast).
    exists (pop_trailing (tip_lines tip_div)), n.
    split; [assumption | split; [assumption |]].
    unfold process_tip. now destruct (pop_trailing (tip_lines tip_div)).
Qed.

Lemma process_tip_trailing_witness :
  process_tip Examples.tip_good_to_know
  = Some ("> **Good to know**" +:+ nl +:+ ">" +:+ nl +:+ "> Hello").
Proof.
  apply (proj1 process_tip_trailing Examples.tip_good_to_know
           (Examples.text_tag "h3" no_attrs "Good to know")
           (Examples.text_tag "p" no_attrs "Hello")
           [Examples.text_tag "h3" no_attrs "Good to know"] []).
  - first_such_at 0%nat.
  - reflexivity.
  - reflexivity.
  - reflexivity.
  - reflexivity.
  - intros c Hc. in_cases Hc. split; reflexivity.
Defined.

(** C6 (as amended): when the tip holds an [h3], at any depth, the text
    of the first one in document order is the bolded first line of the
    blockquote, whatever the position of that header; an empty
    blockquote line follows it whenever any other line follows.  The
    title is emitted once: the loop over the children adds nothing for a
    header.  A tip with no [h3] gets no title line, also when it holds
    headers of other levels. *)
Theorem process_tip_title (tip_div : node) :
  (forall title : node,
      first_such (has_name "h3") tip_div title ->
      exists rest : list string,
        process_tip tip_div
        = Some (join nl (("> **" +:+ get_text title +:+ "**") :: rest))
        /\ (rest = [] \/ exists r, rest = ">" :: r)
        /\ tip_lines tip_div
           = ("> **" +:+ get_text title +:+ "**") :: ">"
             :: flat_map tip_child_lines (children tip_div))
  /\ ((forall d, In d (descendants tip_div) -> has_name "h3" d = false) ->
      tip_lines tip_div = flat_map tip_child_lines (children tip_div))
  /\ (forall c : node,
        has_name "p" c = false -> has_name "div" c = false ->
        tip_child_lines c = []).
Proof.
  split; [|split].
  - intros title Htitle.
    assert (Hlines : tip_lines tip_div
                     = ("> **" +:+ get_text title +:+ "**") :: ">"
                       :: flat_map tip_child_lines (children tip_div)).
    { unfold tip_lines, tip_title_lines.
      now rewrite (find_named _ _ _ Htitle). }
    exists (pop_trailing (">" :: flat_map tip_child_lines (children tip_div))).
    split; [|split; [|exact Hlines]].
    + unfold process_tip. rewrite Hlines, pop_trailing_cons; [reflexivity |].
      intros E. discriminate E.
    + simpl. destruct (pop_trailing (flat_map tip_child_lines (children tip_div)));
        [now left | right; eauto].
  - intros Hno. unfold tip_lines, tip_title_lines.
    rewrite find_None; [reflexivity |].
    intros d Hd. rewrite matches_name. now apply Hno.
  - apply tip_child_lines_other.
Qed.

Lemma process_tip_title_witness :
  exists rest : list string,
    process_tip Examples.tip_h3_last
    = Some (join nl ("> **Word order**" :: rest))
    /\ (rest = [] \/ exists r, rest = ">" :: r)
    /\ tip_lines Examples.tip_h3_last
       = "> **Word order**" :: ">"
         :: flat_map tip_child_lines (children Examples.tip_h3_last).
Proof.
  apply (proj1 (process_tip_title Examples.tip_h3_last)
           (Examples.text_tag "h3" no_attrs "Word order")).
  first_such_at 2%nat.
Defined.

(** The claim C6 as the specification words it fails on a tip whose
    header is of level 4: no title line is emitted. *)
Lemma h4_gives_no_title :
  In (Examples.text_tag "h4" no_attrs "Word order")
     (children Examples.tip_h4)
  /\ process_tip Examples.tip_h4 = Some "> Hello".
Proof. split; [now left | reflexivity]. Qed.

(** ** The batch orchestrator *)

Section FetchProperties.

Variable BeautifulSoup : string -> outcome node.
Variable s : session.

Lemma fetch_page_async_unit (url : string) (unit_num : Z) :
  fst (fetch_page_async BeautifulSoup s url unit_num) = unit_num.
Proof.
  unfold fetch_page_async.
  destruct (s url) as [r | e]; [|reflexivity].
  destruct (status r =? 200); [|reflexivity].
  destruct (text r) as [html | e]; [|reflexivity].
  now destruct (extract_content BeautifulSoup html url (Some unit_num)).
Qed.

(** A page that comes back is the extracted document, with the
    identifier as the lesson hint. *)
Lemma fetch_page_async_content (url : string) (unit_num : Z) (content : string) :
  snd (fetch_page_async BeautifulSoup s url unit_num) = Some content ->
  exists html : string,
    extract_content BeautifulSoup html url (Some unit_num) = Returned content.
Proof.
  unfold fetch_page_async.
  destruct (s url) as [r | e]; [|discriminate].
  destruct (status r =? 200); [|discriminate].
  destruct (text r) as [html | e]; [|discriminate].
  destruct (extract_content BeautifulSoup html url (Some unit_num))
    as [c | e] eqn:E; [|discriminate].
  intros [= <-]. now exists html.
Qed.

Lemma fetch_all_pages_units (start end_ : Z) :
  map fst (fetch_all_pages BeautifulSoup s start end_) = range start (end_ + 1).
Proof.
  unfold fetch_all_pages. rewrite map_map.
  rewrite <- (map_id (range start (end_ + 1))) at 2.
  apply map_ext. intros i. apply fetch_page_async_unit.
Qed.

End FetchProperties.

Lemma length_filter_fst {B} (i : Z) (l : list (Z * B)) :
  length (List.filter (fun r => fst r =? i) l)
  = length (List.filter (fun x => x =? i) (map fst l)).
Proof.
  induction l as [|r l IH]; [reflexivity |].
  simpl. destruct (fst r =? i); simpl; now rewrite IH.
Qed.

(** Every integer of the interval is once in the range, no other is. *)
Lemma range_count (a : Z) (n : nat) (i : Z) :
  length (List.filter (fun x => x =? i)
            (map (fun k => a + Z.of_nat k) (seq 0 n)))
  = if (a <=? i) && (i <? a + Z.of_nat n) then 1%nat else 0%nat.
Proof.
  induction n as [|n IH].
  - cbn [seq map List.filter length].
    destruct (Z.leb_spec a i); destruct (Z.ltb_spec i (a + Z.of_nat 0));
      simpl; try reflexivity; lia.
  - rewrite seq_S, map_app, List.filter_app, length_app, IH.
    cbn [map List.filter Nat.add].
    destruct (Z.eqb_spec (a + Z.of_nat n) i);
      destruct (Z.leb_spec a i);
      destruct (Z.ltb_spec i (a + Z.of_nat n));
      destruct (Z.ltb_spec i (a + Z.of_nat (S n)));
      simpl; try reflexivity; lia.
Qed.

(** C3: the batch run over the range from [start] to [end_] inclusive
    returns one pair per identifier of the range, in the order of the
    range: the identifiers of the result are exactly those of the range,
    each identifier of the range is the first component of exactly one
    pair, and no other identifier occurs. *)
Theorem fetch_all_pages_once (BeautifulSoup : string -> outcome node)
    (s : session)
    (start end_ : Z) :
  map fst (fetch_all_pages BeautifulSoup s start end_) = range start (end_ + 1)
  /\ length (fetch_all_pages BeautifulSoup s start end_)
     = Z.to_nat (end_ - start + 1)
  /\ forall i : Z,
       length (List.filter (fun r => fst r =? i)
                 (fetch_all_pages BeautifulSoup s start end_))
       = if (start <=? i) && (i <=? end_) then 1%nat else 0%nat.
Proof.
  split; [apply fetch_all_pages_units | split].
  - unfold fetch_all_pages, range.
    rewrite !length_map, length_seq. f_equal. lia.
  - intros i. rewrite length_filter_fst, fetch_all_pages_units.
    unfold range. rewrite range_count.
    destruct (Z.leb_spec start i); [|reflexivity].
    destruct (Z.leb_spec i end_);
      destruct (Z.ltb_spec i (start + Z.of_nat (Z.to_nat (end_ + 1 - start))));
      simpl; try reflexivity; lia.
Qed.

(** A run in which the page of unit 4 answers with status 404. *)
Example fetch_all_pages_run :
  fetch_all_pages (Examples.parsed Examples.page_not_found)
    (fun url =>
       if String.eqb url "https://duome.eu/guidebook/en/de/4"
       then Returned (Response 404 (Returned "Not Found"))
       else Returned (Response 200 (Returned "<html>")))
    3 5
  = [(3, Some "Error: Could not find guide content");
     (4, None);
     (5, Some "Error: Could not find guide content")].
Proof. reflexivity. Qed.

(** ** The combiner *)

Lemma valid_results_In (results : list (Z * option string)) (i : Z) (c : string) :
  In (i, c) (valid_results results) <-> In (i, Some c) results.
Proof.
  induction results as [|[num [content |]] rest IH]; simpl.
  - tauto.
  - rewrite IH. split; (intros [E | H]; [left; congruence | now right]).
  - rewrite IH. split; [now right | intros [E | H]; [discriminate | assumption]].
Qed.

Lemma valid_results_units (results : list (Z * option string)) :
  NoDup (map fst results) -> NoDup (map fst (valid_results results)).
Proof.
  induction results as [|[num [content |]] rest IH]; simpl; intros H.
  - constructor.
  - inversion H as [|? ? Hnot Hrest]; subst. constructor; [|now apply IH].
    intros Hin. apply Hnot. apply list_elem_of_In.
    apply list_elem_of_In, in_map_iff in Hin as ([i c] & E & Hin).
    simpl in E. subst i.
    apply valid_results_In in Hin. apply in_map_iff. now exists (num, Some c).
  - inversion H; subst. now apply IH.
Qed.

Lemma insert_by_unit_perm (x : Z * string) (l : list (Z * string)) :
  Permutation (insert_by_unit x l) (x :: l).
Proof.
  induction l as [|y l IH]; simpl; [reflexivity |].
  destruct (fst x <=? fst y); [reflexivity |].
  rewrite IH. apply perm_swap.
Qed.

Lemma sort_by_unit_perm (l : list (Z * string)) :
  Permutation (sort_by_unit l) l.
Proof.
  induction l as [|x l IH]; simpl; [reflexivity |].
  rewrite insert_by_unit_perm. now constructor.
Qed.

Lemma insert_by_unit_sorted (x : Z * string) (l : list (Z * string)) :
  StronglySorted unit_le l -> StronglySorted unit_le (insert_by_unit x l).
Proof.
  induction l as [|y l IH]; intros Hs; simpl.
  - repeat constructor.
  - apply StronglySorted_inv in Hs as [Hl Hy].
    destruct (Z.leb_spec (fst x) (fst y)) as [Hle | Hlt].
    + constructor; [now constructor |].
      constructor; [exact Hle |].
      eapply List.Forall_impl; [|exact Hy].
      intros z Hz. unfold unit_le in *. lia.
    + constructor; [now apply IH |].
      rewrite insert_by_unit_perm. constructor; [|exact Hy].
      unfold unit_le. lia.
Qed.

Lemma sort_by_unit_sorted (l : list (Z * string)) :
  StronglySorted unit_le (sort_by_unit l).
Proof.
  induction l as [|x l IH]; simpl; [constructor |].
  now apply insert_by_unit_sorted.
Qed.

(** The sort is stable: entries of one key keep their order. *)
Lemma insert_by_unit_stable (k : Z) (x : Z * string) (l : list (Z * string)) :
  StronglySorted unit_le l ->
  List.filter (fun r => fst r =? k) (insert_by_unit x l)
  = List.filter (fun r => fst r =? k) (x :: l).
Proof.
  induction l as [|y l IH]; intros Hs; [reflexivity |].
  cbn [insert_by_unit].
  destruct (Z.leb_spec (fst x) (fst y)) as [Hle | Hlt]; [reflexivity |].
  apply StronglySorted_inv in Hs as [Hl Hy].
  cbn [List.filter]. rewrite (IH Hl). cbn [List.filter].
  destruct (Z.eqb_spec (fst y) k), (Z.eqb_spec (fst x) k);
    try reflexivity; lia.
Qed.

Lemma sort_by_unit_stable (k : Z) (l : list (Z * string)) :
  List.filter (fun r => fst r =? k) (sort_by_unit l)
  = List.filter (fun r => fst r =? k) l.
Proof.
  induction l as [|x l IH]; [reflexivity |].
  cbn [sort_by_unit].
  rewrite insert_by_unit_stable by apply sort_by_unit_sorted.
  cbn [List.filter]. now rewrite IH.
Qed.

Lemma filter_unit_above (k : Z) (l : list (Z * string)) :
  Forall (fun r => k < fst r) l ->
  List.filter (fun r => fst r =? k) l = [].
Proof.
  induction l as [|r l IH]; intros H; [reflexivity |].
  apply Forall_cons in H as [Hr Hl]. cbn [List.filter].
  destruct (Z.eqb_spec (fst r) k); [lia | now apply IH].
Qed.

(** Two lists sorted by key that hold, for every key, the same entries in
    the same order are the same list. *)
Lemma stable_sorted_unique (l1 l2 : list (Z * string)) :
  StronglySorted unit_le l1 -> StronglySorted unit_le l2 ->
  (forall k, List.filter (fun r => fst r =? k) l1
             = List.filter (fun r => fst r =? k) l2) ->
  l1 = l2.
Proof.
  revert l2. induction l1 as [|x l1 IH]; intros [|y l2] Hs1 Hs2 H.
  - reflexivity.
  - specialize (H (fst y)). cbn [List.filter] in H.
    rewrite Z.eqb_refl in H. discriminate.
  - specialize (H (fst x)). cbn [List.filter] in H.
    rewrite Z.eqb_refl in H. discriminate.
  - apply StronglySorted_inv in Hs1 as [Hs1 Hx].
    apply StronglySorted_inv in Hs2 as [Hs2 Hy].
    assert (Hk : fst x = fst y).
    { destruct (Z.lt_trichotomy (fst x) (fst y)) as [Hlt | [E | Hgt]];
        [exfalso | exact E | exfalso].
      - specialize (H (fst x)). cbn [List.filter] in H.
        rewrite Z.eqb_refl in H.
        destruct (Z.eqb_spec (fst y) (fst x)); [lia |].
        rewrite (filter_unit_above (fst x) l2) in H; [discriminate |].
        eapply List.Forall_impl; [|exact Hy].
        intros z Hz. unfold unit_le in Hz. lia.
      - specialize (H (fst y)). cbn [List.filter] in H.
        rewrite Z.eqb_refl in H.
        destruct (Z.eqb_spec (fst x) (fst y)); [lia |].
        rewrite (filter_unit_above (fst y) l1) in H; [discriminate |].
        eapply List.Forall_impl; [|exact Hx].
        intros z Hz. unfold unit_le in Hz. lia. }
    assert (Hxy : x = y).
    { specialize (H (fst x)). cbn [List.filter] in H.
      rewrite <- Hk, Z.eqb_refl in H. congruence. }
    subst y. f_equal. apply IH; try assumption.
    intros k. specialize (H k). cbn [List.filter] in H.
    destruct (fst x =? k); congruence.
Qed.

(** So the sort is the stable sort by key: any list sorted by key that
    keeps, for every key, the entries of [l] in their order is
    [sort_by_unit l]. *)
Lemma sort_by_unit_unique (l l' : list (Z * string)) :
  StronglySorted unit_le l' ->
  (forall k, List.filter (fun r => fst r =? k) l'
             = List.filter (fun r => fst r =? k) l) ->
  l' = sort_by_unit l.
Proof.
  intros Hs Hst. apply stable_sorted_unique;
    [assumption | apply sort_by_unit_sorted |].
  intros k. now rewrite Hst, sort_by_unit_stable.
Qed.

Lemma sorted_strict (l : list Z) :
  StronglySorted Z.le l -> NoDup l -> StronglySorted Z.lt l.
Proof.
  induction l as [|a l IH]; intros Hs Hn; [constructor |].
  apply StronglySorted_inv in Hs as [Hl Ha].
  inversion Hn as [|? ? Hnot Hrest]; subst.
  constructor; [now apply IH |].
  rewrite List.Forall_forall in *. intros x Hx.
  specialize (Ha x Hx).
  assert (a <> x) by (intros ->; now apply Hnot, list_elem_of_In). lia.
Qed.

Lemma sorted_units (l : list (Z * string)) :
  StronglySorted unit_le l -> StronglySorted Z.le (map fst l).
Proof.
  induction l as [|x l IH]; intros Hs; simpl; [constructor |].
  apply StronglySorted_inv in Hs as [Hl Hx].
  constructor; [now apply IH |].
  rewrite List.Forall_forall in *. intros k Hk.
  apply in_map_iff in Hk as (y & <- & Hy). now apply Hx.
Qed.

(** The loop puts the separator after every entry but the last: the
    pieces, put together, are the documents joined by the separator. *)
Lemma combined_content_join (valid : list (Z * string)) (i : Z) :
  join EmptyString (combined_content i (i + Z.of_nat (length valid)) valid)
  = join separator (map snd valid).
Proof.
  revert i. induction valid as [|[u c] rest IH]; intros i; [reflexivity |].
  cbn [combined_content map snd].
  replace (i + Z.of_nat (length ((u, c) :: rest)))
    with (i + 1 + Z.of_nat (length rest)) by (cbn [length]; lia).
  destruct rest as [|r rest].
  - destruct (Z.ltb_spec i (i + 1 + Z.of_nat (length (@nil (Z * string))) - 1));
      [cbn [length] in *; lia | reflexivity].
  - destruct (Z.ltb_spec i (i + 1 + Z.of_nat (length (r :: rest)) - 1));
      [|cbn [length] in *; lia].
    cbn [app]. rewrite !join_empty_cons, (IH (i + 1)).
    rewrite (join_cons separator c (map snd (r :: rest))) by discriminate.
    reflexivity.
Qed.

(** For any list of results, the text written is the present documents
    in ascending order of their identifiers, equal identifiers in their
    order of arrival, joined by the separator. *)
Lemma final_content_join (results : list (Z * option string)) :
  final_content results
  = join separator (map snd (sort_by_unit (valid_results results))).
Proof.
  unfold final_content.
  apply (combined_content_join (sort_by_unit (valid_results results)) 0).
Qed.

(** C2: for a batch result set, where every identifier occurs once, the
    file written holds exactly the documents whose result is present, in
    strictly ascending order of their identifiers, joined by the
    separator of two line feeds, three dashes and two line feeds, which
    stands between the documents and not after the last one.  At the
    result set of [(2, B)] and [(1, A)] the content is [A], the
    separator, [B]. *)
Theorem combine_and_save_content :
  snd (combine_and_save [(2, Some "B"); (1, Some "A")]
         "all_duolingo_guidebooks.md" ∅) !! "all_duolingo_guidebooks.md"
  = Some ("A" +:+ nl +:+ nl +:+ "---" +:+ nl +:+ nl +:+ "B")
  /\ forall (results : list (Z * option string)) (filename : string)
            (files : gmap string string),
       NoDup (map fst results) ->
       exists valid : list (Z * string),
         (forall i c, In (i, c) valid <-> In (i, Some c) results)
         /\ StronglySorted Z.lt (map fst valid)
         /\ combine_and_save results filename files
            = (filename, <[filename := join separator (map snd valid)]> files).
Proof.
  split.
  - unfold combine_and_save. cbn [snd]. now rewrite lookup_insert_eq.
  - intros results filename files Hnodup.
    exists (sort_by_unit (valid_results results)). split; [|split].
    + intros i c. rewrite <- valid_results_In.
      split; apply Permutation_in;
        [|symmetry]; apply sort_by_unit_perm.
    + apply sorted_strict.
      * apply sorted_units, sort_by_unit_sorted.
      * rewrite (Permutation_map fst (sort_by_unit_perm (valid_results results))).
        apply valid_results_units, Hnodup.
    + unfold combine_and_save. now rewrite final_content_join.
Qed.

Lemma combine_and_save_content_witness :
  exists valid : list (Z * string),
    (forall i c, In (i, c) valid
                 <-> In (i, Some c) [(2, Some "B"); (3, None); (1, Some "A")])
    /\ StronglySorted Z.lt (map fst valid)
    /\ combine_and_save [(2, Some "B"); (3, None); (1, Some "A")]
         "all_duolingo_guidebooks.md" ∅
       = ("all_duolingo_guidebooks.md",
          <["all_duolingo_guidebooks.md" := join separator (map snd valid)]> ∅).
Proof.
  apply (proj2 combine_and_save_content
           [(2, Some "B"); (3, None); (1, Some "A")]
           "all_duolingo_guidebooks.md" ∅).
  repeat constructor; rewrite list_elem_of_In; simpl; intuition discriminate.
Defined.

(** * Further properties *)

(** ** The content extractor: the error string and the lesson hint *)

Lemma join_cons_tail (sep x : string) (l : list string) :
  join sep (x :: l)
  = x +:+ match l with
          | [] => EmptyString
          | _ => sep +:+ join sep l
          end.
Proof. destruct l; [symmetry; apply append_empty_r | reflexivity]. Qed.

Lemma join_nl_shape (l : list string) :
  Forall (fun f => exists r, f = nl +:+ r) l ->
  join nl l = EmptyString \/ exists r, join nl l = nl +:+ r.
Proof.
  intros H. destruct H as [|x l (r & ->) H]; [now left |].
  right. rewrite join_cons_tail, append_assoc. eauto.
Qed.

(** The title block has at most one line, which starts with [# ]. *)
Lemma title_lines_shape (guide : node) (lesson_number : option Z) :
  title_lines guide lesson_number = []
  \/ exists t, title_lines guide lesson_number = ["# " +:+ t].
Proof.
  unfold title_lines. destruct (find "h3" (Some "zero") guide); [|now left].
  right. eexists. reflexivity.
Qed.

(** X1: the fixed error string comes back exactly when the markup is
    parsed and has no guide container: a page whose guide container is
    found never yields that string, whatever the container holds. *)
Theorem extract_content_error_iff (BeautifulSoup : string -> outcome node)
    (html base_url : string) (lesson_number : option Z) :
  extract_content BeautifulSoup html base_url lesson_number
  = Returned "Error: Could not find guide content"
  <-> exists soup : node,
        BeautifulSoup html = Returned soup
        /\ find "div" (Some "guide") soup = None.
Proof.
  unfold extract_content.
  destruct (BeautifulSoup html) as [soup | e];
    [|split; [discriminate | intros (soup & [=] & _)]].
  destruct (find "div" (Some "guide") soup) as [guide |] eqn:Hfind.
  - split; [|intros (soup' & [= <-] & H); congruence].
    intros [= E]. exfalso.
    assert (Hp : String.prefix "E"
                   (join nl (title_lines guide lesson_number ++ body_lines guide))
                 = false).
    { destruct (title_lines_shape guide lesson_number) as [-> | (t & ->)].
      - cbn [app].
        destruct (join_nl_shape _ (body_lines_nl guide)) as [-> | (r & ->)];
          reflexivity.
      - cbn [app]. rewrite join_cons_tail. reflexivity. }
    rewrite E in Hp. discriminate.
  - split; [|reflexivity]. intros _. now exists soup.
Qed.

(** X2: when the guide holds a title header, the lesson hint changes the
    output in one place only: [Lesson N: ] is put between the [# ] that
    opens the title line and the rest of the document. *)
Theorem extract_content_hint (BeautifulSoup : string -> outcome node)
    (html base_url : string) (soup guide title_elem : node) (n : Z) :
  BeautifulSoup html = Returned soup ->
  find "div" (Some "guide") soup = Some guide ->
  first_such (marked "h3" "zero") guide title_elem ->
  exists out : string,
    extract_content BeautifulSoup html base_url None = Returned out
    /\ extract_content BeautifulSoup html base_url (Some n)
       = Returned ("# Lesson " +:+ str_of_int n +:+ ": " +:+ drop_chars 2 out).
Proof.
  intros Hsoup Hguide Htitle. unfold extract_content, title_lines.
  rewrite Hsoup, Hguide, (find_marked "h3" "zero" _ _ eq_refl eq_refl Htitle).
  eexists. split; [reflexivity |].
  cbn [app]. rewrite !join_cons_tail.
  change (drop_chars 2 (("# " +:+ ?a) +:+ ?b)) with (a +:+ b).
  rewrite !append_assoc. reflexivity.
Qed.

Lemma extract_content_hint_witness :
  exists out : string,
    extract_content (Examples.parsed Examples.page_headers) "<html>" "" None
    = Returned out
    /\ extract_content (Examples.parsed Examples.page_headers) "<html>" ""
         (Some 2)
       = Returned ("# Lesson " +:+ str_of_int 2 +:+ ": " +:+ drop_chars 2 out).
Proof.
  apply (extract_content_hint (Examples.parsed Examples.page_headers)
           "<html>" "" Examples.page_headers Examples.guide_headers
           Examples.h3_title 2).
  - reflexivity.
  - reflexivity.
  - first_such_at 0%nat.
Defined.

(** ** The title pattern *)

Lemma last_marker_Some (s : string) (q b : nat) :
  exists b', last_marker s q (Some b) = Some b'.
Proof.
  revert q b. induction s as [|c s IH]; intros q b; cbn [last_marker]; [eauto |].
  destruct (Ascii.eqb c (ascii_of_nat 10)); [eauto |].
  destruct (String.prefix marker (String c s)); apply IH.
Qed.

Lemma last_marker_None (s : string) (q : nat) :
  last_marker s q None = None <-> no_marker_line s = true.
Proof.
  revert q. induction s as [|c s IH]; intros q;
    cbn [last_marker no_marker_line]; [tauto |].
  destruct (Ascii.eqb c (ascii_of_nat 10)); [tauto |].
  destruct (String.prefix marker (String c s)); cbn [negb andb].
  - destruct (last_marker_Some s (S q) q) as (b' & ->). split; discriminate.
  - apply IH.
Qed.

Lemma match_length_None (s : string) :
  match_length s = None <-> no_marker_line s = true.
Proof.
  unfold match_length. rewrite <- (last_marker_None s O).
  destruct (last_marker s O None); split; congruence.
Qed.

(** A match is never empty. *)
Lemma match_length_pos (s : string) (m : nat) :
  match_length s = Some m -> exists k, m = S k.
Proof.
  unfold match_length. destruct (last_marker s O None) as [q |]; [|discriminate].
  intros [= <-]. rewrite Nat.add_comm with (n := q). simpl. eauto.
Qed.

Lemma sub_from_skip (k : nat) (s : string) :
  sub_from k s = sub_from O (drop_chars k s).
Proof.
  revert k. induction s as [|c s IH]; intros [|k]; try reflexivity.
  cbn [sub_from drop_chars]. apply IH.
Qed.

Lemma drop_chars_length (k : nat) (s : string) :
  (String.length (drop_chars k s) <= String.length s)%nat.
Proof.
  revert k. induction s as [|c s IH]; intros [|k]; simpl; try lia.
  specialize (IH k). lia.
Qed.

Lemma contains_no_marker_line (s : string) :
  contains marker s = false -> no_marker_line s = true.
Proof.
  induction s as [|c s IH]; [reflexivity |].
  cbn [contains no_marker_line]. intros H.
  apply orb_false_iff in H as [Hp Hc].
  destruct (Ascii.eqb c (ascii_of_nat 10)); [reflexivity |].
  rewrite Hp. now apply IH.
Qed.

(** X3: a title text in which [Guidebook:] does not occur is left as it
    is by the substitution. *)
Theorem sub_guidebook_unchanged (title_text : string) :
  contains "Guidebook:" title_text = false ->
  sub_guidebook title_text = title_text.
Proof.
  unfold sub_guidebook. induction title_text as [|c s IH]; [reflexivity |].
  intros H. pose proof (contains_no_marker_line _ H) as Hline.
  apply match_length_None in Hline. cbn [sub_from]. rewrite Hline.
  f_equal. apply IH. cbn [contains] in H. now apply orb_false_iff in H.
Qed.

Lemma sub_guidebook_unchanged_witness :
  sub_guidebook "Greetings: part 2" = "Greetings: part 2".
Proof. apply (sub_guidebook_unchanged "Greetings: part 2"). reflexivity. Defined.

(** Where no match starts in the first line, that line is copied: the
    output starts with a string free of line feeds exactly when the input
    does. *)
Lemma sub_from_prefix (s m : string) :
  no_marker_line s = true -> no_line_feed m = true ->
  String.prefix m (sub_from O s) = String.prefix m s.
Proof.
  revert m. induction s as [|c s IH]; intros m Hs Hm; [reflexivity |].
  assert (Hml : match_length (String c s) = None) by now apply match_length_None.
  cbn [sub_from]. rewrite Hml.
  destruct m as [|d m]; [reflexivity |].
  cbn [String.prefix]. destruct (ascii_dec d c) as [-> |]; [|reflexivity].
  cbn [no_line_feed] in Hm. apply andb_true_iff in Hm as [Hd Hm].
  cbn [no_marker_line] in Hs. apply negb_true_iff in Hd. rewrite Hd in Hs.
  apply andb_true_iff in Hs as [_ Hs]. now apply IH.
Qed.

Lemma no_marker_line_prefix (s : string) :
  no_marker_line s = true -> String.prefix marker s = false.
Proof.
  destruct s as [|c s]; [reflexivity |]. cbn [no_marker_line].
  destruct (Ascii.eqb_spec c (ascii_of_nat 10)) as [-> | Hc]; [reflexivity |].
  intros H. apply andb_true_iff in H as [H _]. now apply negb_true_iff in H.
Qed.

Lemma sub_from_no_marker (n : nat) (s : string) :
  (String.length s <= n)%nat -> contains marker (sub_from O s) = false.
Proof.
  revert s. induction n as [|n IH]; intros s Hlen.
  - destruct s; [reflexivity | simpl in Hlen; lia].
  - destruct s as [|c s]; [reflexivity |]. simpl in Hlen.
    destruct (match_length (String c s)) as [m |] eqn:Hml.
    + destruct (match_length_pos _ _ Hml) as (k & ->).
      cbn [sub_from]. rewrite Hml, sub_from_skip. apply IH.
      pose proof (drop_chars_length k s). lia.
    + pose proof (proj1 (match_length_None _) Hml) as Hline.
      assert (Hp : String.prefix marker (sub_from O (String c s)) = false).
      { rewrite sub_from_prefix by (assumption || reflexivity).
        now apply no_marker_line_prefix. }
      cbn [sub_from] in *. rewrite Hml in *. cbn [contains].
      rewrite Hp. apply IH. lia.
Qed.

(** X4: after the substitution the title text holds no [Guidebook:] any
    more, wherever and however often it stood in the text. *)
Theorem sub_guidebook_no_marker (title_text : string) :
  contains "Guidebook:" (sub_guidebook title_text) = false.
Proof. apply (sub_from_no_marker (String.length title_text)). lia. Qed.

(** ** The dialog processor: empty results *)

Lemma truthy_join_cons (sep x : string) (l : list string) :
  truthy x = true -> truthy (join sep (x :: l)) = true.
Proof. intros H. rewrite join_cons_tail. now apply truthy_append_l. Qed.

Lemma dialog_text_of_truthy (text_div : node) (t : string) :
  dialog_text_of text_div = Some t -> truthy t = true.
Proof.
  unfold dialog_text_of.
  match goal with
  | |- context [truthy ?g && _] => destruct (truthy g) eqn:Hg
  end; [|discriminate].
  cbn [andb].
  match goal with
  | |- context [if truthy ?e then _ else _] => destruct (truthy e)
  end; intros [= <-]; [now apply truthy_append_l | assumption].
Qed.

Lemma dialog_lines_truthy (dialog_div : node) :
  Forall (fun l => truthy l = true) (dialog_lines dialog_div).
Proof.
  unfold dialog_lines.
  induction (find_all "div" (Some "storyline") dialog_div) as [|st sts IH];
    [constructor |].
  cbn [flat_map]. apply Forall_app. split; [|exact IH].
  destruct (find "div" (Some "phrase") st) as [phrase |]; [|constructor].
  destruct (extract_dialog_text phrase) as [t |]; [|constructor].
  destruct (truthy t) eqn:Ht; repeat constructor. exact Ht.
Qed.

(** X5: neither [extract_dialog_text] nor [process_dialog] ever returns
    the empty string: a result that is not [None] has at least one
    character. *)
Theorem dialog_text_nonempty :
  (forall (phrase_div : node) (t : string),
      extract_dialog_text phrase_div = Some t -> truthy t = true)
  /\ (forall (dialog_div : node) (t : string),
        process_dialog dialog_div = Some t -> truthy t = true).
Proof.
  split.
  - intros phrase_div t. unfold extract_dialog_text.
    destruct (find "div" (Some EmptyString) phrase_div); [|discriminate].
    apply dialog_text_of_truthy.
  - intros dialog_div t. unfold process_dialog.
    pose proof (dialog_lines_truthy dialog_div) as H.
    destruct (dialog_lines dialog_div) as [|l ls]; [discriminate |].
    intros [= <-]. apply truthy_join_cons. now inversion H.
Qed.

Lemma dialog_text_nonempty_witness :
  truthy ("Ich bin." +:+ nl +:+ "I am") = true.
Proof.
  apply (proj2 dialog_text_nonempty Examples.dialogue_ich_bin). reflexivity.
Defined.

Lemma scan_punctuation_none (cs : list node) :
  (forall c s, In c cs -> as_str c = Some s ->
               mem (strip s) punctuation = false) ->
  scan_punctuation cs = EmptyString.
Proof.
  induction cs as [|c cs IH]; intros H; [reflexivity |].
  cbn [scan_punctuation]. destruct (as_str c) as [s |] eqn:Hc.
  - rewrite (H c s) by (auto; now left). apply IH.
    intros c' s' Hin. apply H. now right.
  - apply IH. intros c' s' Hin. apply H. now right.
Qed.

(** X6: a phrase whose text container holds no dotted span and no
    punctuation token gives no dialog line, also when it holds a
    translation: the translation never stands alone. *)
Theorem extract_dialog_text_no_words (phrase_div text_div : node) :
  first_such plain_div phrase_div text_div ->
  (forall d, In d (descendants text_div) -> marked "span" "dotted" d = false) ->
  (forall c s, In c (children text_div) -> as_str c = Some s ->
               mem (strip s) punctuation = false) ->
  extract_dialog_text phrase_div = None.
Proof.
  intros Hdiv Hdotted Hpunct.
  unfold extract_dialog_text. rewrite (find_plain_div _ _ Hdiv).
  unfold dialog_text_of. rewrite find_all_marked by reflexivity.
  assert (Hnil : List.filter (marked "span" "dotted") (descendants text_div) = []).
  { induction (descendants text_div) as [|d ds IH]; [reflexivity |].
    cbn [List.filter]. rewrite (Hdotted d) by now left.
    apply IH. intros d' Hd'. apply Hdotted. now right. }
  rewrite Hnil, (scan_punctuation_none _ Hpunct). reflexivity.
Qed.

Lemma extract_dialog_text_no_words_witness :
  extract_dialog_text Examples.phrase_translation_only = None.
Proof.
  apply (extract_dialog_text_no_words Examples.phrase_translation_only
           Examples.text_translation_only).
  - first_such_at 1%nat.
  - intros d Hd. in_cases Hd.
  - intros c s Hc Hs. in_cases Hc; now inversion Hs.
Defined.

(** ** The tip processor: the shape of the result *)

Lemma figure_lines_quoted (st : illustration) :
  Forall (fun l => String.prefix ">" l = true) (figure_lines st).
Proof.
  unfold figure_lines. destruct (img_src st) as [src |]; [|constructor].
  destruct (truthy src); [|constructor].
  match goal with
  | |- context [if truthy ?c then _ else _] => destruct (truthy c)
  end; repeat constructor.
Qed.

Lemma tip_child_lines_quoted (element : node) :
  Forall (fun l => String.prefix ">" l = true) (tip_child_lines element).
Proof.
  unfold tip_child_lines. destruct (has_name "p" element).
  - match goal with
    | |- context [if ?b then _ else _] => destruct b
    end; repeat constructor.
  - destruct (has_name "div" element && mem "illustration" (get_class element));
      [apply figure_lines_quoted | constructor].
Qed.

(** Every line assembled for a tip starts with the blockquote mark. *)
Lemma tip_lines_quoted (tip_div : node) :
  Forall (fun l => String.prefix ">" l = true) (tip_lines tip_div).
Proof.
  unfold tip_lines. apply Forall_app. split.
  - unfold tip_title_lines. destruct (find "h3" None tip_div);
      repeat constructor.
  - induction (children tip_div) as [|c cs IH]; [constructor |].
    cbn [flat_map]. apply Forall_app. split;
      [apply tip_child_lines_quoted | exact IH].
Qed.

Lemma prefix_append (m x r : string) :
  String.prefix m x = true -> String.prefix m (x +:+ r) = true.
Proof.
  revert m. induction x as [|c x IH]; intros [|d m] H.
  - rewrite append_empty_l. now destruct r.
  - simpl in H. discriminate.
  - reflexivity.
  - rewrite append_cons. cbn [String.prefix] in *.
    destruct (ascii_dec d c); [now apply IH | discriminate].
Qed.

(** X7: a result of [process_tip] that is not [None] starts with the
    blockquote mark; in particular it is never the empty string. *)
Theorem process_tip_quoted (tip_div : node) (t : string) :
  process_tip tip_div = Some t -> String.prefix ">" t = true.
Proof.
  unfold process_tip.
  destruct (pop_trailing_spec (tip_lines tip_div)) as (n & E & _).
  pose proof (tip_lines_quoted tip_div) as Hq. rewrite E in Hq.
  apply Forall_app in Hq as [Hq _].
  destruct (pop_trailing (tip_lines tip_div)) as [|l ls]; [discriminate |].
  intros [= <-]. inversion Hq as [|? ? Hl _]; subst.
  destruct ls; [exact Hl | now apply prefix_append].
Qed.

Lemma process_tip_quoted_witness :
  String.prefix ">" ("> **Good to know**" +:+ nl +:+ ">" +:+ nl +:+ "> Hello")
  = true.
Proof. apply (process_tip_quoted Examples.tip_good_to_know). reflexivity. Defined.

(** Whatever a child or the title adds holds a line that is not an empty
    blockquote line. *)
Lemma figure_lines_visible (st : illustration) :
  figure_lines st = [] \/ exists l, In l (figure_lines st) /\ l <> ">".
Proof.
  unfold figure_lines. destruct (img_src st) as [src |]; [|now left].
  destruct (truthy src); [|now left]. right.
  match goal with
  | |- context [if truthy ?c then ?a else ?b] =>
      exists (if truthy c then a else b)
  end.
  split; [right; now left |].
  match goal with
  | |- context [if truthy ?c then _ else _] => destruct (truthy c)
  end; intros E; discriminate E.
Qed.

Lemma tip_child_lines_visible (element : node) :
  tip_child_lines element = []
  \/ exists l, In l (tip_child_lines element) /\ l <> ">".
Proof.
  unfold tip_child_lines. destruct (has_name "p" element).
  - match goal with
    | |- context [if ?b then _ else _] => destruct b
    end; [right | now left].
    eexists. split; [now left |]. intros E. discriminate E.
  - destruct (has_name "div" element && mem "illustration" (get_class element));
      [apply figure_lines_visible | now left].
Qed.

Lemma tip_lines_visible (tip_div : node) :
  tip_lines tip_div = [] \/ exists l, In l (tip_lines tip_div) /\ l <> ">".
Proof.
  unfold tip_lines, tip_title_lines.
  destruct (find "h3" None tip_div) as [title |].
  - right. eexists. split; [now left |]. intros E. discriminate E.
  - cbn [app]. induction (children tip_div) as [|c cs IH]; [now left |].
    cbn [flat_map].
    destruct (tip_child_lines_visible c) as [-> | (l & Hl & Hne)].
    + exact IH.
    + right. exists l. split; [apply in_or_app; now left | exact Hne].
Qed.

(** X8: [process_tip] returns [None] only when nothing at all was
    assembled -- no title, no paragraph with visible text, no figure:
    the removal of the trailing empty lines never empties a tip for which
    lines were assembled. *)
Theorem process_tip_None (tip_div : node) :
  process_tip tip_div = None <-> tip_lines tip_div = [].
Proof.
  unfold process_tip. split.
  - intros H.
    destruct (pop_trailing_spec (tip_lines tip_div)) as (n & E & _).
    destruct (pop_trailing (tip_lines tip_div)); [|discriminate].
    destruct (tip_lines_visible tip_div) as [-> | (l & Hl & Hne)];
      [reflexivity |].
    rewrite E in Hl. cbn [app] in Hl. apply repeat_spec in Hl. contradiction.
  - intros ->. reflexivity.
Qed.

(** ** The tip processor: captions *)

(** X9: the loop over the children of a caption stops at the first line
    break: what follows it, a translation span included, is not read. *)
Theorem scan_caption_break (pre post : list node) (br : node)
    (german_parts : list string) (english_text : string) :
  has_name "br" br = true ->
  scan_caption (pre ++ br :: post) german_parts english_text
  = scan_caption pre german_parts english_text.
Proof.
  intros Hbr. revert german_parts english_text.
  induction pre as [|c pre IH]; intros german_parts english_text.
  - cbn [app scan_caption].
    destruct br as [s | s | nm a cs]; try discriminate.
    cbn [as_str]. cbn [has_name] in *.
    apply String.eqb_eq in Hbr. subst nm. reflexivity.
  - cbn [app scan_caption]. destruct (as_str c); [apply IH |].
    destruct (has_name "span" c).
    + destruct (mem "cAF" (get_class c)); apply IH.
    + destruct (has_name "br" c); [reflexivity | apply IH].
Qed.

Lemma scan_caption_break_witness :
  scan_caption
    ([NavigableString "Hallo!"]
     ++ Tag "br" no_attrs [] :: [Examples.span "cAF" "Hello!"])
    [] EmptyString
  = scan_caption [NavigableString "Hallo!"] [] EmptyString.
Proof.
  apply (scan_caption_break [NavigableString "Hallo!"]
           [Examples.span "cAF" "Hello!"] (Tag "br" no_attrs [])).
  reflexivity.
Defined.

Lemma caption_steps_captions (divs : list node) (st : illustration) :
  captions (fold_left caption_step divs st)
  = match last (List.filter
                  (fun d => negb (mem "playback" (get_class d))) divs) with
    | Some d => caption_of d
    | None => captions st
    end.
Proof.
  revert st. induction divs as [|d divs IH]; intros st; [reflexivity |].
  cbn [fold_left List.filter]. rewrite IH. unfold caption_step.
  destruct (mem "playback" (get_class d)); cbn [negb]; [reflexivity |].
  rewrite last_cons.
  destruct (last (List.filter
                    (fun d0 => negb (mem "playback" (get_class d0))) divs));
    [reflexivity |].
  unfold caption_of.
  now destruct (scan_caption (children d) [] EmptyString).
Qed.

Lemma illustration_steps_captions (cs : list node) (st : illustration) :
  captions (fold_left illustration_step cs st)
  = match last (caption_candidates (Tag "div" no_attrs cs)) with
    | Some d => caption_of d
    | None => captions st
    end.
Proof.
  unfold caption_candidates. cbn [children].
  revert st. induction cs as [|c cs IH]; intros st; [reflexivity |].
  cbn [fold_left List.filter]. rewrite IH. unfold illustration_step, marked.
  destruct (has_name "img" c) eqn:Himg.
  - assert (Hdiv : has_name "div" c = false).
    { destruct c as [s | s | nm a k]; try reflexivity.
      cbn [has_name] in *. apply String.eqb_eq in Himg. now subst nm. }
    rewrite Hdiv. cbn [andb].
    match goal with
    | |- context [if ?b then _ else st] => now destruct b
    end.
  - destruct (has_name "div" c && mem "caption" (get_class c)); [|reflexivity].
    cbn [flat_map]. rewrite last_app, caption_steps_captions.
    match goal with
    | |- context [last (flat_map ?f ?l)] => destruct (last (flat_map f l))
    end; reflexivity.
Qed.

(** X10: the caption of an illustration is read from the last [div]
    child of its caption elements that is not a playback control,
    wherever the images stand among the children; with no such [div],
    both caption texts stay [None]. *)
Theorem illustration_caption (element : node) :
  (caption_german (scan_illustration element),
   caption_english (scan_illustration element))
  = match last (caption_candidates element) with
    | Some d => caption_of d
    | None => (None, None)
    end.
Proof.
  unfold scan_illustration.
  change (captions (fold_left illustration_step (children element)
                      (Illustration None None None))
          = match last (caption_candidates element) with
            | Some d => caption_of d
            | None => (None, None)
            end).
  rewrite illustration_steps_captions. reflexivity.
Qed.

(** ** The batch orchestrator: what counts as fetched *)

(** X11: a page is recorded with a document exactly when the request
    returns, the status is 200, the body can be read and the parser
    accepts it; every other status and every exception, the parser's
    included, gives [None] for that identifier. *)
Theorem fetch_page_async_present (BeautifulSoup : string -> outcome node)
    (s : session) (url : string) (unit_num : Z) :
  is_Some (snd (fetch_page_async BeautifulSoup s url unit_num))
  <-> exists (r : response) (html : string) (soup : node),
        s url = Returned r /\ status r = 200 /\ text r = Returned html
        /\ BeautifulSoup html = Returned soup.
Proof.
  unfold fetch_page_async, extract_content. split.
  - destruct (s url) as [r | e]; [|intros [? [=]]].
    destruct (Z.eqb_spec (status r) 200) as [E | Hne]; [|intros [? [=]]].
    destruct (text r) as [html | e] eqn:Ht; [|intros [? [=]]].
    destruct (BeautifulSoup html) as [soup | e] eqn:Hs; [|intros [? [=]]].
    intros _. now exists r, html, soup.
  - intros (r & html & soup & -> & -> & -> & ->). cbn.
    destruct (find "div" (Some "guide") soup); cbn; eauto.
Qed.

(** X12: in a batch run a page that answers with status 200 and whose
    parse tree has no guide container is not a failed page: it is
    recorded with the error string as its document. *)
Theorem fetch_page_async_no_guide (BeautifulSoup : string -> outcome node)
    (s : session) (url html : string) (soup : node) (unit_num : Z) :
  s url = Returned (Response 200 (Returned html)) ->
  BeautifulSoup html = Returned soup ->
  (forall d, In d (descendants soup) -> mem "guide" (get_class d) = false) ->
  fetch_page_async BeautifulSoup s url unit_num
  = (unit_num, Some "Error: Could not find guide content")
  /\ valid_results [fetch_page_async BeautifulSoup s url unit_num]
     = [(unit_num, "Error: Could not find guide content")].
Proof.
  intros Hs Hsoup Hno.
  assert (E : fetch_page_async BeautifulSoup s url unit_num
              = (unit_num, Some "Error: Could not find guide content")).
  { unfold fetch_page_async. rewrite Hs. cbn [status text Z.eqb Pos.eqb].
    unfold extract_content. rewrite Hsoup, find_None; [reflexivity |].
    intros d Hd. apply matches_marker; auto. }
  split; [exact E | now rewrite E].
Qed.

Lemma fetch_page_async_no_guide_witness :
  fetch_page_async (Examples.parsed Examples.page_not_found)
    (fun _ => Returned (Response 200 (Returned "<html>")))
    "https://duome.eu/guidebook/en/de/999" 999
  = (999, Some "Error: Could not find guide content")
  /\ valid_results
       [fetch_page_async (Examples.parsed Examples.page_not_found)
          (fun _ => Returned (Response 200 (Returned "<html>")))
          "https://duome.eu/guidebook/en/de/999" 999]
     = [(999, "Error: Could not find guide content")].
Proof.
  apply (fetch_page_async_no_guide (Examples.parsed Examples.page_not_found)
           (fun _ => Returned (Response 200 (Returned "<html>")))
           "https://duome.eu/guidebook/en/de/999" "<html>"
           Examples.page_not_found 999).
  - reflexivity.
  - reflexivity.
  - intros d Hd. in_cases Hd.
Defined.

(** ** The combiner: successes and failures *)

(** X13: the combiner splits the results in two: every result is counted
    either among the valid ones or among the failed units, never in both
    and never in neither, and the two counts add up to the total. *)
Theorem valid_failed_partition (results : list (Z * option string)) :
  map fst results ≡ₚ map fst (valid_results results) ++ failed_units results
  /\ (length (valid_results results) + length (failed_units results)
      = length results)%nat.
Proof.
  induction results as [|[num [content |]] rest [IHp IHl]].
  - split; reflexivity.
  - cbn [valid_results failed_units map fst length app]. split.
    + now constructor.
    + simpl. now rewrite IHl.
  - cbn [valid_results failed_units map fst length]. split.
    + rewrite IHp. apply Permutation_middle.
    + rewrite <- IHl. lia.
Qed.

Lemma valid_results_perm (r1 r2 : list (Z * option string)) :
  r1 ≡ₚ r2 -> valid_results r1 ≡ₚ valid_results r2.
Proof.
  induction 1 as [| [i [c |]] l l' _ IH | [i [c |]] [j [d |]] l | l l' l'' _ IH1 _ IH2];
    cbn [valid_results]; try reflexivity; try assumption.
  - now constructor.
  - apply perm_swap.
  - now transitivity (valid_results l').
Qed.

Lemma list_filter_perm {A} (f : A -> bool) (l l' : list A) :
  l ≡ₚ l' -> List.filter f l ≡ₚ List.filter f l'.
Proof.
  induction 1 as [| x l l' _ IH | x y l | l l' l'' _ IH1 _ IH2];
    cbn [List.filter].
  - reflexivity.
  - destruct (f x); [now constructor | assumption].
  - destruct (f x), (f y); try reflexivity. apply perm_swap.
  - now transitivity (List.filter f l').
Qed.

Lemma filter_unit_absent (k : Z) (l : list (Z * string)) :
  ~ In k (map fst l) -> List.filter (fun r => fst r =? k) l = [].
Proof.
  induction l as [|r l IH]; intros H; [reflexivity |].
  cbn [List.filter]. destruct (Z.eqb_spec (fst r) k) as [E | Hne].
  - exfalso. apply H. now left.
  - apply IH. intros Hin. apply H. now right.
Qed.

Lemma filter_unit_short (k : Z) (l : list (Z * string)) :
  NoDup (map fst l) ->
  (length (List.filter (fun r => (fst r =? k)%Z) l) <= 1)%nat.
Proof.
  induction l as [|r l IH]; intros H; [simpl; lia |].
  inversion H as [|? ? Hnot Hrest]; subst.
  cbn [List.filter]. destruct (Z.eqb_spec (fst r) k) as [E | Hne].
  - rewrite filter_unit_absent; [simpl; lia |].
    rewrite <- E. intros Hin. now apply Hnot, list_elem_of_In.
  - now apply IH.
Qed.

Lemma short_perm_eq {A} (l l' : list A) :
  (length l <= 1)%nat -> l ≡ₚ l' -> l = l'.
Proof.
  intros Hlen Hp. destruct l as [|x [|y l]]; [| |simpl in Hlen; lia].
  - symmetry. now apply Permutation_nil.
  - symmetry. now apply Permutation_length_1_inv.
Qed.

(** X14: when the identifiers are distinct, the text the combiner writes
    does not depend on the order in which the results arrive. *)
Theorem final_content_order (r1 r2 : list (Z * option string)) :
  NoDup (map fst r1) -> r1 ≡ₚ r2 -> final_content r1 = final_content r2.
Proof.
  intros Hnodup Hperm. rewrite !final_content_join. do 2 f_equal.
  apply stable_sorted_unique; try apply sort_by_unit_sorted.
  intros k. rewrite !sort_by_unit_stable.
  apply short_perm_eq.
  - apply filter_unit_short, valid_results_units, Hnodup.
  - apply list_filter_perm, valid_results_perm, Hperm.
Qed.

Lemma final_content_order_witness :
  final_content [(2, Some "B"); (3, None); (1, Some "A")]
  = final_content [(1, Some "A"); (2, Some "B"); (3, None)].
Proof.
  apply (final_content_order [(2, Some "B"); (3, None); (1, Some "A")]
           [(1, Some "A"); (2, Some "B"); (3, None)]).
  - repeat constructor; rewrite list_elem_of_In; simpl; intuition discriminate.
  - etransitivity; [apply perm_swap |]. etransitivity;
      [apply perm_skip, perm_swap |]. etransitivity; [apply perm_swap |].
    apply perm_skip, perm_swap.
Defined.

(** ** The batch run as a whole *)

Lemma range_sorted (start : Z) (m n : nat) :
  StronglySorted Z.le (map (fun k => start + Z.of_nat k) (seq m n)).
Proof.
  revert m. induction n as [|n IH]; intros m; [constructor |].
  cbn [seq map]. constructor; [apply IH |].
  apply List.Forall_forall. intros x Hx.
  apply in_map_iff in Hx as (k & <- & Hk). apply in_seq in Hk. lia.
Qed.

Lemma valid_results_sorted (results : list (Z * option string)) :
  StronglySorted Z.le (map fst results) ->
  StronglySorted unit_le (valid_results results).
Proof.
  induction results as [|[num [content |]] rest IH];
    cbn [map fst valid_results]; intros Hs.
  - constructor.
  - apply StronglySorted_inv in Hs as [Hrest Hnum].
    constructor; [now apply IH |].
    apply List.Forall_forall. intros [i c] Hin.
    apply valid_results_In in Hin. unfold unit_le. cbn [fst].
    rewrite List.Forall_forall in Hnum. apply Hnum.
    apply in_map_iff. now exists (i, Some c).
  - apply StronglySorted_inv in Hs as [Hrest _]. now apply IH.
Qed.

(** X15: in a batch run the sort of the combiner changes nothing: the
    file written holds the documents of the pages that were fetched, in
    the order of the range, joined by the separator. *)
Theorem main_async_range_order (BeautifulSoup : string -> outcome node)
    (s : session)
    (start end_ : Z) (output_file : string) (files : gmap string string) :
  main_async BeautifulSoup s start end_ output_file files
  = (output_file,
     <[output_file :=
         join separator
           (map snd (valid_results
                       (fetch_all_pages BeautifulSoup s start end_)))]> files).
Proof.
  unfold main_async, combine_and_save. rewrite final_content_join.
  rewrite <- (sort_by_unit_unique
                (valid_results (fetch_all_pages BeautifulSoup s start end_))
                (valid_results (fetch_all_pages BeautifulSoup s start end_)));
    [reflexivity | | reflexivity].
  apply valid_results_sorted. rewrite fetch_all_pages_units. apply range_sorted.
Qed.

(** X16: a range whose end lies before its start gives no task at all,
    and the run still writes the output file, with nothing in it. *)
Theorem main_async_empty_range (BeautifulSoup : string -> outcome node)
    (s : session)
    (start end_ : Z) (output_file : string) (files : gmap string string) :
  end_ < start ->
  fetch_all_pages BeautifulSoup s start end_ = []
  /\ main_async BeautifulSoup s start end_ output_file files
     = (output_file, <[output_file := EmptyString]> files).
Proof.
  intros Hlt.
  assert (E : fetch_all_pages BeautifulSoup s start end_ = []).
  { unfold fetch_all_pages, range.
    replace (Z.to_nat (end_ + 1 - start)) with O by lia. reflexivity. }
  split; [exact E |]. unfold main_async. now rewrite E.
Qed.

Lemma main_async_empty_range_witness :
  fetch_all_pages (Examples.parsed Examples.page_not_found)
    (fun _ => Raised "offline") 5 4 = []
  /\ main_async (Examples.parsed Examples.page_not_found)
       (fun _ => Raised "offline") 5 4 "all_duolingo_guidebooks.md" ∅
     = ("all_duolingo_guidebooks.md",
        <["all_duolingo_guidebooks.md" := EmptyString]> ∅).
Proof.
  apply (main_async_empty_range (Examples.parsed Examples.page_not_found)
           (fun _ => Raised "offline") 5 4 "all_duolingo_guidebooks.md" ∅).
  lia.
Defined.

(** ** The single-page converter: the lesson number of a URL *)

Lemma string_of_uint_digits (d : Decimal.uint) :
  all_digits (NilEmpty.string_of_uint d) = true.
Proof. induction d; cbn [NilEmpty.string_of_uint all_digits]; auto. Qed.

Lemma str_of_int_digits (n : Z) :
  0 <= n -> all_digits (str_of_int n) = true /\ truthy (str_of_int n) = true.
Proof.
  intros Hn. unfold str_of_int. destruct n as [|p|p]; [now split | | lia].
  cbn [Z.to_int NilZero.string_of_int]. unfold NilZero.string_of_uint.
  pose proof (DecimalPos.Unsigned.to_uint_nonnil p) as Hnil.
  pose proof (string_of_uint_digits (Pos.to_uint p)) as Hd.
  destruct (Pos.to_uint p); [congruence | ..]; split; auto.
Qed.

Lemma int_of_str_of_int (n : Z) :
  0 <= n -> Single.int_of_str (str_of_int n) = Some n.
Proof.
  intros Hn. unfold Single.int_of_str, str_of_int.
  destruct n as [|p|p]; [reflexivity | | lia].
  cbn [Z.to_int NilZero.string_of_int].
  rewrite NilZero.usu by apply DecimalPos.Unsigned.to_uint_nonnil.
  cbn [option_map]. unfold Z.of_uint.
  now rewrite DecimalPos.Unsigned.of_to.
Qed.

Lemma all_digits_not_nl (s : string) :
  all_digits s = true -> String.eqb s nl = false.
Proof.
  intros H. apply String.eqb_neq. intros ->. discriminate.
Qed.

Lemma digits_to_end_all (s : string) :
  all_digits s = true -> truthy s = true -> Single.digits_to_end s = Some s.
Proof.
  induction s as [|c s IH]; [discriminate |].
  cbn [all_digits Single.digits_to_end]. intros H _.
  apply andb_true_iff in H as [Hc Hs]. rewrite Hc.
  destruct s as [|c' s']; [reflexivity |].
  rewrite (all_digits_not_nl _ Hs), (IH Hs eq_refl). reflexivity.
Qed.

Lemma slash_not_nl (a b : string) : String.eqb (a +:+ "/" +:+ b) nl = false.
Proof.
  apply String.eqb_neq. destruct a as [|c [|c' a]]; discriminate.
Qed.

Lemma append_cons_shape (a : string) (c : ascii) (b : string) :
  exists x r, a +:+ String c b = String x r.
Proof. destruct a as [|x a]; [now exists c, b | now exists x, (a +:+ String c b)]. Qed.

Lemma digits_to_end_slash (a b : string) :
  Single.digits_to_end (a +:+ "/" +:+ b) = None.
Proof.
  induction a as [|c a IH]; [reflexivity |].
  rewrite append_cons. cbn [Single.digits_to_end].
  destruct (Single.isdigit c); [|reflexivity].
  rewrite IH, slash_not_nl.
  destruct (append_cons_shape a "/" b) as (x & r & E).
  change (String "/" b) with ("/" +:+ b) in E. now rewrite E.
Qed.

Lemma search_lesson_last (prefix group : string) :
  all_digits group = true -> truthy group = true ->
  Single.search_lesson (prefix +:+ "/" +:+ group) = Some group.
Proof.
  intros Hd Hne. induction prefix as [|c prefix IH].
  - change (EmptyString +:+ "/" +:+ group) with (String "/" group).
    cbn [Single.search_lesson]. now rewrite Ascii.eqb_refl, digits_to_end_all.
  - rewrite append_cons. cbn [Single.search_lesson].
    rewrite digits_to_end_slash, IH. now destruct (Ascii.eqb c "/").
Qed.

(** X17: the lesson number the single-page script reads off a URL is
    the identifier the URL was built from: for every identifier that is
    not negative, a URL that ends with a slash and the decimal form of
    the identifier gives that identifier back. *)
Theorem url_lesson_number_round_trip (prefix : string) (n : Z) :
  0 <= n ->
  Single.url_lesson_number (prefix +:+ "/" +:+ str_of_int n) = Some n.
Proof.
  intros Hn. destruct (str_of_int_digits n Hn) as [Hd Hne].
  unfold Single.url_lesson_number.
  rewrite (search_lesson_last _ _ Hd Hne). now apply int_of_str_of_int.
Qed.

Lemma url_lesson_number_round_trip_witness :
  Single.url_lesson_number
    ("https://duome.eu/guidebook/en/de" +:+ "/" +:+ str_of_int 14)
  = Some 14.
Proof.
  apply (url_lesson_number_round_trip "https://duome.eu/guidebook/en/de" 14).
  lia.
Defined.

Lemma digits_to_end_last (body : string) (c : ascii) :
  Single.isdigit c = false -> c <> ascii_of_nat 10 ->
  Single.digits_to_end (body +:+ String c EmptyString) = None.
Proof.
  intros Hc Hnl. induction body as [|d body IH].
  - change (EmptyString +:+ String c EmptyString) with (String c EmptyString).
    cbn [Single.digits_to_end]. now rewrite Hc.
  - rewrite append_cons. cbn [Single.digits_to_end].
    destruct (Single.isdigit d); [|reflexivity]. rewrite IH.
    assert (Hne : String.eqb (body +:+ String c EmptyString) nl = false).
    { apply String.eqb_neq. destruct body as [|x [|y body]]; try discriminate.
      intros [= E]. now apply Hnl. }
    rewrite Hne.
    destruct (append_cons_shape body c EmptyString) as (x & r & ->).
    reflexivity.
Qed.

(** X18: a URL whose last character is neither a digit nor a line feed
    gives no lesson number: a trailing slash or a query string after the
    number is enough for the hint to be dropped. *)
Theorem url_lesson_number_none (body : string) (c : ascii) :
  Single.isdigit c = false -> c <> ascii_of_nat 10 ->
  Single.url_lesson_number (body +:+ String c EmptyString) = None.
Proof.
  intros Hc Hnl. unfold Single.url_lesson_number.
  assert (E : Single.search_lesson (body +:+ String c EmptyString) = None).
  { induction body as [|d body IH].
    - change (EmptyString +:+ String c EmptyString) with (String c EmptyString).
      cbn [Single.search_lesson Single.digits_to_end].
      now destruct (Ascii.eqb c "/").
    - rewrite append_cons. cbn [Single.search_lesson].
      rewrite (digits_to_end_last body c Hc Hnl), IH.
      now destruct (Ascii.eqb d "/"). }
  now rewrite E.
Qed.

Lemma url_lesson_number_none_witness :
  Single.url_lesson_number
    ("https://duome.eu/guidebook/en/de/14" +:+ String "/" EmptyString)
  = None.
Proof.
  apply (url_lesson_number_none "https://duome.eu/guidebook/en/de/14" "/").
  - reflexivity.
  - discriminate.
Defined.

(** ** The single-page converter: the run *)



(** X20: the two scripts agree on a page of the guidebook: for an
    identifier that is not negative, the single-page run on the URL the
    batch builds for it, with no lesson number given, returns the
    document the batch records for that identifier, when both receive the
    same body with status 200. *)
Theorem single_matches_batch (BeautifulSoup : string -> outcome node)
    (get : string -> outcome Single.response) (s : session)
    (unit_num : Z) (html : string) (files : gmap string string) :
  0 <= unit_num ->
  get (base_url +:+ str_of_int unit_num)
  = Returned (Single.Response 200 html) ->
  s (base_url +:+ str_of_int unit_num)
  = Returned (Response 200 (Returned html)) ->
  fst (Single.main BeautifulSoup get (base_url +:+ str_of_int unit_num)
         None files)
  = snd (fetch_page_async BeautifulSoup s
           (base_url +:+ str_of_int unit_num) unit_num).
Proof.
  intros Hn Hget Hs.
  unfold Single.main, Single.fetch_page, fetch_page_async.
  rewrite Hget, Hs. cbn [Single.raise_for_status Single.status_code
                         Single.text status text].
  assert (Hurl : Single.url_lesson_number (base_url +:+ str_of_int unit_num)
                 = Some unit_num).
  { destruct (str_of_int_digits unit_num Hn) as [Hd Hne].
    change (base_url +:+ str_of_int unit_num)
      with ("https://duome.eu/guidebook/en/de" +:+ "/" +:+ str_of_int unit_num).
    unfold Single.url_lesson_number.
    now rewrite (search_lesson_last _ _ Hd Hne), (int_of_str_of_int _ Hn). }
  rewrite Hurl. cbn.
  now destruct (extract_content BeautifulSoup html
                  (base_url +:+ str_of_int unit_num) (Some unit_num)).
Qed.

Lemma single_matches_batch_witness :
  fst (Single.main (Examples.parsed Examples.page_headers)
         (fun _ => Returned (Single.Response 200 "<html>"))
         (base_url +:+ str_of_int 2) None ∅)
  = snd (fetch_page_async (Examples.parsed Examples.page_headers)
           (fun _ => Returned (Response 200 (Returned "<html>")))
           (base_url +:+ str_of_int 2) 2).
Proof.
  apply (single_matches_batch (Examples.parsed Examples.page_headers)
           (fun _ => Returned (Single.Response 200 "<html>"))
           (fun _ => Returned (Response 200 (Returned "<html>")))
           2 "<html>" ∅); [lia | reflexivity | reflexivity].
Defined.
